(** * The live-preview update pipeline of ghostwriter (src/htmlpreview.cpp)

    A shallow embedding of [HtmlPreview] and [HtmlPreviewPrivate]: the
    update coordinator ([updatePreview], [onHtmlReady]), the line diff that
    places the scroll anchor, the publication of the rendered markup
    ([setHtmlContent]), the renderer adapter ([exportToHtml]) and the base
    directory resolver ([updateBaseDir]).

    The C++ object is a record that every method takes and returns.  The
    Qt classes the file only calls ([QTextStream], [QUrl], [QFileInfo],
    [QWebEngineView], [QtConcurrent]) are represented by the part of their
    state that the file observes. *)

From Stdlib Require Import String Ascii List Bool Arith ZArith Lia.
From Stdlib Require Import DecimalString DecimalPos DecimalZ.
Import ListNotations.
Open Scope string_scope.

(** ** Strings *)

(** A [QString] is either null or a sequence of characters; the null string
    is also empty. *)
Definition QString := option string.

Definition isNull (s : QString) : bool :=
  match s with None => true | Some _ => false end.

Definition isEmpty (s : QString) : bool :=
  match s with
  | None => true
  | Some t => Nat.eqb (String.length t) 0
  end.

Definition LF : ascii := "010"%char.
Definition CR : ascii := "013"%char.
Definition nl : string := String LF EmptyString.
Definition dquote : string := String "034"%char EmptyString.

(** ** QTextStream over a string

    [readLine] returns the characters up to the next line feed, without the
    line feed and without a carriage return that precedes it (or that ends
    the data), and the null string once the data is used up.  [scanLine]
    gives the line and the unread remainder. *)
Fixpoint scanLine (s : string) : string * string :=
  match s with
  | EmptyString => (EmptyString, EmptyString)
  | String c rest =>
      if Ascii.eqb c LF then (EmptyString, rest)
      else
        let keep := let (l, r) := scanLine rest in (String c l, r) in
        if Ascii.eqb c CR then
          match rest with
          | EmptyString => (EmptyString, EmptyString)
          | String c' rest' =>
              if Ascii.eqb c' LF then (EmptyString, rest') else keep
          end
        else keep
  end.

Definition readLine (s : string) : option (string * string) :=
  match s with
  | EmptyString => None
  | _ => Some (scanLine s)
  end.

(** Every line [readLine] delivers from [s] until it returns null.  The
    fuel is the length of [s]: each call consumes a character. *)
Fixpoint readAll (fuel : nat) (s : string) : list string :=
  match fuel with
  | 0 => []
  | S k =>
      match readLine s with
      | None => []
      | Some (l, r) => l :: readAll k r
      end
  end.

Definition lines (s : string) : list string := readAll (String.length s) s.

(** ** The diff that places the anchor (onHtmlReady, lines 274-317)

    A stream together with the variable holding the line last read from it
    ([oldLine] with [oldHtmlDoc], [newLine] with [newHtmlDoc]) is the list
    of lines from that line on: the head is the variable, the empty list is
    the null line, and [readLine] drops the head. *)
Definition anchor : string :=
  "<a id=" ++ dquote ++ "livepreviewmodifypoint" ++ dquote ++ "></a>".

(** The first loop (lines 284-296): copy lines while both documents have
    one and they are equal; on the first unequal pair write the anchor and
    stop with both lines still current. *)
Fixpoint scanCommon (oldDoc newDoc : list string) (out : string)
  : bool * string * list string * list string :=
  match oldDoc, newDoc with
  | oldLine :: oldRest, newLine :: newRest =>
      if negb (oldLine =? newLine) then
        (true, out ++ anchor, oldDoc, newDoc)
      else
        scanCommon oldRest newRest ((out ++ newLine) ++ nl)
  | _, _ => (false, out, oldDoc, newDoc)
  end.

(** Lines 301-304: lines were removed at the end of the new document. *)
Definition markRemovedTail (differenceFound : bool)
    (oldDoc newDoc : list string) (out : string) : bool * string :=
  if negb differenceFound
     && negb (match oldDoc with [] => true | _ => false end)
     && (match newDoc with [] => true | _ => false end)
  then (true, out ++ anchor)
  else (differenceFound, out).

(** The last loop (lines 309-317): the rest of the new document, behind an
    anchor when none was written yet. *)
Fixpoint copyRemaining (newDoc : list string) (differenceFound : bool)
    (out : string) : bool * string :=
  match newDoc with
  | [] => (differenceFound, out)
  | newLine :: newRest =>
      let out1 := if differenceFound then out else out ++ anchor in
      copyRemaining newRest true ((out1 ++ newLine) ++ nl)
  end.

(** The anchored markup and [differenceFound]. *)
Definition diffLines (oldDoc newDoc : list string) : string * bool :=
  let '(found1, out1, oldDoc1, newDoc1) := scanCommon oldDoc newDoc "" in
  let '(found2, out2) := markRemovedTail found1 oldDoc1 newDoc1 out1 in
  let '(found3, out3) := copyRemaining newDoc1 found2 out2 in
  (out3, found3).

(** What [anchoredHtmlDoc << line << "\n"] writes for a run of lines. *)
Fixpoint emitLines (ls : list string) : string :=
  match ls with
  | [] => ""
  | l :: rest => (l ++ nl) ++ emitLines rest
  end.

(** Whether a markup contains the anchor. *)
Definition hasAnchor (s : string) : bool :=
  match index 0 anchor s with
  | Some _ => true
  | None => false
  end.

(** ** Collaborators *)

(** The document being previewed, as far as the preview reads it:
    [isEmpty()], [toPlainText()] and [filePath()]. *)
Record MarkdownDocument := {
  document_isEmpty : bool;
  toPlainText : QString;
  filePath : QString
}.

(** Modelled from the spec: the class StringObserver (stringobserver.h),
    of which only the calls are in the source.  It holds the current value
    and notifies its subscribers when [setText] changes it; identical
    consecutive values do not notify again.  [textChanged] lists the values
    the signal was emitted with, oldest first. *)
Record StringObserver := {
  text : string;
  textChanged : list string
}.

Definition setText (t : string) (o : StringObserver) : StringObserver :=
  if text o =? t then o
  else {| text := t; textChanged := (textChanged o ++ [t])%list |}.

(** Modelled from the spec: the renderer interface Exporter (exporter.h):
    [smartTypographyEnabled()], [setSmartTypographyEnabled(bool)] and the
    export of a text to markup.  The setting is a plain property of the
    exporter: reading after writing gives what was written, writing what
    was read changes nothing, and the last write wins.  The export reads
    the exporter's settings. *)
Class Exporter (E : Type) := {
  smartTypographyEnabled : E -> bool;
  setSmartTypographyEnabled : bool -> E -> E;
  exporter_exportToHtml : string -> E -> string;
  smart_get_set : forall b e,
    smartTypographyEnabled (setSmartTypographyEnabled b e) = b;
  smart_set_get : forall e,
    setSmartTypographyEnabled (smartTypographyEnabled e) e = e;
  smart_set_set : forall a b e,
    setSmartTypographyEnabled a (setSmartTypographyEnabled b e)
    = setSmartTypographyEnabled a e
}.

(** The two Qt path functions [updateBaseDir] composes:
    [QFileInfo(path).dir().absolutePath()] and
    [QUrl::fromLocalFile(path).toString()]. *)
Class QtPaths := {
  dir_absolutePath : string -> string;
  fromLocalFile : string -> string
}.

(** ** The renderer adapter (exportToHtml, lines 380-401)

    The calls on the exporter thread its state. *)
Definition ExporterM (E A : Type) : Type := E -> A * E.

Definition ret {E A} (a : A) : ExporterM E A := fun e => (a, e).

Definition bind {E A B} (m : ExporterM E A) (k : A -> ExporterM E B)
  : ExporterM E B :=
  fun e => let (a, e1) := m e in k a e1.

Notation "x <- m ;; k" := (bind m (fun x => k))
  (at level 61, m at next level, right associativity).
Notation "m ;;; k" := (bind m (fun _ => k))
  (at level 61, right associativity).

Section Model.

Context {E : Type} `{Exporter E} `{QtPaths}.

Definition getSmart : ExporterM E bool :=
  fun e => (smartTypographyEnabled e, e).

Definition setSmart (b : bool) : ExporterM E unit :=
  fun e => (tt, setSmartTypographyEnabled b e).

Definition callExport (t : string) : ExporterM E string :=
  fun e => (exporter_exportToHtml t e, e).

Definition exportToHtml (t : string) : ExporterM E string :=
  enabled <- getSmart ;;
  setSmart true ;;;
  html <- callExport t ;;
  setSmart enabled ;;;
  ret html.

(** ** The preview object *)

(** The fields of HtmlPreviewPrivate the methods use, and with them:
    [running], the exports started with [QtConcurrent::run] that have not
    finished, oldest first; [count], the static tally of [setHtmlContent];
    [visible], the widget's [isVisible()]; [loaded], the [setHtml] calls on
    the web view as (markup, base URL), oldest first. *)
Record HtmlPreview := {
  document : MarkdownDocument;
  updateInProgress : bool;
  updateAgain : bool;
  vanillaHtml : string;
  livePreviewHtml : StringObserver;
  styleSheet : StringObserver;
  baseUrl : string;
  exporter : option E;
  wrapperHtml : string;
  running : list (string * E);
  count : nat;
  visible : bool;
  loaded : list (string * string)
}.

Definition set_document v d :=
  {| document := v; updateInProgress := updateInProgress d;
     updateAgain := updateAgain d; vanillaHtml := vanillaHtml d;
     livePreviewHtml := livePreviewHtml d; styleSheet := styleSheet d;
     baseUrl := baseUrl d; exporter := exporter d;
     wrapperHtml := wrapperHtml d; running := running d; count := count d;
     visible := visible d; loaded := loaded d |}.

Definition set_updateInProgress v d :=
  {| document := document d; updateInProgress := v;
     updateAgain := updateAgain d; vanillaHtml := vanillaHtml d;
     livePreviewHtml := livePreviewHtml d; styleSheet := styleSheet d;
     baseUrl := baseUrl d; exporter := exporter d;
     wrapperHtml := wrapperHtml d; running := running d; count := count d;
     visible := visible d; loaded := loaded d |}.

Definition set_updateAgain v d :=
  {| document := document d; updateInProgress := updateInProgress d;
     updateAgain := v; vanillaHtml := vanillaHtml d;
     livePreviewHtml := livePreviewHtml d; styleSheet := styleSheet d;
     baseUrl := baseUrl d; exporter := exporter d;
     wrapperHtml := wrapperHtml d; running := running d; count := count d;
     visible := visible d; loaded := loaded d |}.

Definition set_vanillaHtml v d :=
  {| document := document d; updateInProgress := updateInProgress d;
     updateAgain := updateAgain d; vanillaHtml := v;
     livePreviewHtml := livePreviewHtml d; styleSheet := styleSheet d;
     baseUrl := baseUrl d; exporter := exporter d;
     wrapperHtml := wrapperHtml d; running := running d; count := count d;
     visible := visible d; loaded := loaded d |}.

Definition set_livePreviewHtml v d :=
  {| document := document d; updateInProgress := updateInProgress d;
     updateAgain := updateAgain d; vanillaHtml := vanillaHtml d;
     livePreviewHtml := v; styleSheet := styleSheet d;
     baseUrl := baseUrl d; exporter := exporter d;
     wrapperHtml := wrapperHtml d; running := running d; count := count d;
     visible := visible d; loaded := loaded d |}.

Definition set_styleSheet v d :=
  {| document := document d; updateInProgress := updateInProgress d;
     updateAgain := updateAgain d; vanillaHtml := vanillaHtml d;
     livePreviewHtml := livePreviewHtml d; styleSheet := v;
     baseUrl := baseUrl d; exporter := exporter d;
     wrapperHtml := wrapperHtml d; running := running d; count := count d;
     visible := visible d; loaded := loaded d |}.

Definition set_baseUrl v d :=
  {| document := document d; updateInProgress := updateInProgress d;
     updateAgain := updateAgain d; vanillaHtml := vanillaHtml d;
     livePreviewHtml := livePreviewHtml d; styleSheet := styleSheet d;
     baseUrl := v; exporter := exporter d;
     wrapperHtml := wrapperHtml d; running := running d; count := count d;
     visible := visible d; loaded := loaded d |}.

Definition set_exporter v d :=
  {| document := document d; updateInProgress := updateInProgress d;
     updateAgain := updateAgain d; vanillaHtml := vanillaHtml d;
     livePreviewHtml := livePreviewHtml d; styleSheet := styleSheet d;
     baseUrl := baseUrl d; exporter := v;
     wrapperHtml := wrapperHtml d; running := running d; count := count d;
     visible := visible d; loaded := loaded d |}.

Definition set_running v d :=
  {| document := document d; updateInProgress := updateInProgress d;
     updateAgain := updateAgain d; vanillaHtml := vanillaHtml d;
     livePreviewHtml := livePreviewHtml d; styleSheet := styleSheet d;
     baseUrl := baseUrl d; exporter := exporter d;
     wrapperHtml := wrapperHtml d; running := v; count := count d;
     visible := visible d; loaded := loaded d |}.

Definition set_count v d :=
  {| document := document d; updateInProgress := updateInProgress d;
     updateAgain := updateAgain d; vanillaHtml := vanillaHtml d;
     livePreviewHtml := livePreviewHtml d; styleSheet := styleSheet d;
     baseUrl := baseUrl d; exporter := exporter d;
     wrapperHtml := wrapperHtml d; running := running d; count := v;
     visible := visible d; loaded := loaded d |}.

Definition set_visible v d :=
  {| document := document d; updateInProgress := updateInProgress d;
     updateAgain := updateAgain d; vanillaHtml := vanillaHtml d;
     livePreviewHtml := livePreviewHtml d; styleSheet := styleSheet d;
     baseUrl := baseUrl d; exporter := exporter d;
     wrapperHtml := wrapperHtml d; running := running d; count := count d;
     visible := v; loaded := loaded d |}.

Definition set_loaded v d :=
  {| document := document d; updateInProgress := updateInProgress d;
     updateAgain := updateAgain d; vanillaHtml := vanillaHtml d;
     livePreviewHtml := livePreviewHtml d; styleSheet := styleSheet d;
     baseUrl := baseUrl d; exporter := exporter d;
     wrapperHtml := wrapperHtml d; running := running d; count := count d;
     visible := visible d; loaded := v |}.

(** The shell markup the constructor assigns to [wrapperHtml]
    (lines 160-193). *)
Definition shellHtml : string :=
  String.concat "" [
    "<!doctype html>";
    "<html lang="; dquote; "en"; dquote; ">";
    "<meta charset="; dquote; "utf-8"; dquote; ">";
    "<head>";
    "    <script>";
    "         MathJax = {";
    "            tex: {";
    "                inlineMath: [['$', '$']]";
    "             }";
    "         };";
    "    </script>";
    "    <script type="; dquote; "text/javascript"; dquote;
    " id="; dquote; "MathJax-script"; dquote;
    " src="; dquote;
    "https://cdn.jsdelivr.net/npm/mathjax@3/es5/tex-mml-chtml.js";
    dquote; "></script>";
    "    <style id='ghostwriter_css' type='text/css' media='all'></style>";
    "    <script src="; dquote; "qrc:/qtwebchannel/qwebchannel.js"; dquote;
    "></script>";
    "</head>";
    "<body>";
    "    <div id="; dquote; "livepreviewplaceholder"; dquote; "></div>";
    "    <script src="; dquote; "qrc:/resources/gw.js"; dquote; "></script>";
    "    <script>";
    "        new QWebChannel(qt.webChannelTransport,";
    "            function(channel) {";
    "                var styleSheet = channel.objects.stylesheet;";
    "                loadStyleSheet(styleSheet.text);";
    "                styleSheet.textChanged.connect(loadStyleSheet);";
    "";
    "                var content = channel.objects.livepreviewcontent;";
    "                updateText(content.text);";
    "                content.textChanged.connect(updateText);";
    "            }";
    "        );";
    "    </script>";
    "</body>";
    "</html>" ].

(** ** Publication (setHtmlContent, lines 372-378) *)
Definition setHtmlContent (html : string) (d : HtmlPreview) : HtmlPreview :=
  let d1 := set_count (S (count d)) d in
  let d2 := set_vanillaHtml html d1 in
  set_livePreviewHtml (setText html (livePreviewHtml d2)) d2.

(** [QtConcurrent::run] of [exportToHtml] on a text and an exporter. *)
Definition startExport (t : string) (e : E) (d : HtmlPreview) : HtmlPreview :=
  set_running (running d ++ [(t, e)])%list d.

(** [QWebEngineView::setHtml]. *)
Definition setHtml (html base : string) (d : HtmlPreview) : HtmlPreview :=
  set_loaded (loaded d ++ [(html, base)])%list d.

Definition qstring_chars (s : QString) : string :=
  match s with Some t => t | None => "" end.

(** ** The update coordinator *)

(** updatePreview, lines 211-242. *)
Definition updatePreview (d : HtmlPreview) : HtmlPreview :=
  if updateInProgress d then set_updateAgain true d
  else if visible d then
    if document_isEmpty (document d) then setHtmlContent "" d
    else
      match exporter d with
      | Some e =>
          let t := toPlainText (document d) in
          if negb (isNull t) && negb (isEmpty t) then
            startExport (qstring_chars (toPlainText (document d))) e
              (set_updateInProgress true d)
          else d
      | None => d
      end
  else d.

(** setHtmlExporter, lines 255-260. *)
Definition setHtmlExporter (e : option E) (d : HtmlPreview) : HtmlPreview :=
  updatePreview (setHtmlContent "" (set_exporter e d)).

(** setStyleSheet, lines 262-265. *)
Definition setStyleSheet (css : string) (d : HtmlPreview) : HtmlPreview :=
  set_styleSheet (setText css (styleSheet d)) d.

(** onHtmlReady, lines 269-322: diff the result against the stored render
    and publish when they differ. *)
Definition publishRender (html : string) (d : HtmlPreview) : HtmlPreview :=
  let '(anchoredHtml, differenceFound) :=
    diffLines (lines (vanillaHtml d)) (lines html) in
  if differenceFound then
    set_vanillaHtml html (setHtmlContent anchoredHtml d)
  else d.

(** onHtmlReady, lines 324-329: the render is over; replay a request that
    arrived meanwhile. *)
Definition finishUpdate (d : HtmlPreview) : HtmlPreview :=
  let d1 := set_updateInProgress false d in
  if updateAgain d1 then updatePreview (set_updateAgain false d1)
  else d1.

(** onHtmlReady, lines 267-331; [html] is [futureWatcher->result()]. *)
Definition onHtmlReady (html : string) (d : HtmlPreview) : HtmlPreview :=
  finishUpdate (publishRender html d).

(** ** The base directory (updateBaseDir, lines 340-356) *)
Definition baseLocation (doc : MarkdownDocument) : string :=
  if negb (isNull (filePath doc)) && negb (isEmpty (filePath doc)) then
    fromLocalFile (dir_absolutePath (qstring_chars (filePath doc)) ++ "/")
  else "".

Definition updateBaseDir (d : HtmlPreview) : HtmlPreview :=
  let d1 := set_baseUrl (baseLocation (document d)) d in
  let d2 := setHtml (wrapperHtml d1) (baseUrl d1) d1 in
  updatePreview d2.

(** closeEvent, lines 363-370. *)
Definition closeEvent (d : HtmlPreview) : HtmlPreview :=
  let d1 := setHtmlContent "" d in
  let d2 := set_vanillaHtml "" d1 in
  set_livePreviewHtml (setText "" (livePreviewHtml d2)) d2.

(** The constructor, lines 88-197.  A widget is not visible before it is
    shown. *)
Definition newObserver : StringObserver := {| text := ""; textChanged := [] |}.

Definition HtmlPreview_new (doc : MarkdownDocument) (e : option E)
  : HtmlPreview :=
  updateBaseDir
    {| document := doc;
       updateInProgress := false;
       updateAgain := false;
       vanillaHtml := "";
       livePreviewHtml := setText "" newObserver;
       styleSheet := setText "" newObserver;
       baseUrl := "";
       exporter := e;
       wrapperHtml := shellHtml;
       running := [];
       count := 0;
       visible := false;
       loaded := [] |}.

(** ** Events

    What reaches the preview from outside: calls of its public methods, the
    document's [filePathChanged] signal, the watcher's [finished] signal,
    and changes of what it reads (the document's text, its own
    visibility). *)
Inductive Event :=
| CallUpdatePreview
| CallSetHtmlExporter (e : option E)
| CallSetStyleSheet (css : string)
| CloseEvent
| FilePathChanged (path : QString)
| TextEdited (empty : bool) (t : QString)
| SetVisible (v : bool)
| Finished.

(** The oldest running export ends: its result goes to [onHtmlReady]. *)
Definition finished (d : HtmlPreview) : HtmlPreview :=
  match running d with
  | [] => d
  | (t, e) :: rest => onHtmlReady (fst (exportToHtml t e)) (set_running rest d)
  end.

Definition handle (ev : Event) (d : HtmlPreview) : HtmlPreview :=
  match ev with
  | CallUpdatePreview => updatePreview d
  | CallSetHtmlExporter e => setHtmlExporter e d
  | CallSetStyleSheet css => setStyleSheet css d
  | CloseEvent => closeEvent d
  | FilePathChanged path =>
      let doc := document d in
      updateBaseDir
        (set_document {| document_isEmpty := document_isEmpty doc;
                         toPlainText := toPlainText doc;
                         filePath := path |} d)
  | TextEdited empty t =>
      let doc := document d in
      set_document {| document_isEmpty := empty;
                      toPlainText := t;
                      filePath := filePath doc |} d
  | SetVisible v => set_visible v d
  | Finished => finished d
  end.

Definition run (evs : list Event) (d : HtmlPreview) : HtmlPreview :=
  fold_left (fun d ev => handle ev d) evs d.

(** The states of a preview: as constructed, and after each event. *)
Inductive reachable : HtmlPreview -> Prop :=
| reachable_new doc e : reachable (HtmlPreview_new doc e)
| reachable_step ev d : reachable d -> reachable (handle ev d).

(** The test [updatePreview] makes, once no update is in progress, before it
    starts an export. *)
Definition canRender (d : HtmlPreview) : bool :=
  visible d
  && negb (document_isEmpty (document d))
  && (match exporter d with Some _ => true | None => false end)
  && negb (isNull (toPlainText (document d)))
  && negb (isEmpty (toPlainText (document d))).

(** The flag [updateInProgress] counts the running exports. *)
Definition singleFlight (d : HtmlPreview) : Prop :=
  length (running d) = if updateInProgress d then 1 else 0.

(** The export that test lets [updatePreview] start. *)
Definition nextExport (d : HtmlPreview) : list (string * E) :=
  match exporter d with
  | Some e =>
      if canRender d then [(qstring_chars (toPlainText (document d)), e)]
      else []
  | None => []
  end.

End Model.

Arguments HtmlPreview E : clear implicits.
Arguments Event E : clear implicits.

(** ** Scripts run on the page *)

(** [QString::arg] with one argument on a template whose only place marker
    is [%1], not followed by a digit: the marker is replaced wherever it
    stands. *)
Fixpoint arg1 (template a : string) : string :=
  match template with
  | EmptyString => EmptyString
  | String c rest =>
      if Ascii.eqb c "%"%char then
        match rest with
        | String c' rest' =>
            if Ascii.eqb c' "1"%char then a ++ arg1 rest' a
            else String c (arg1 rest a)
        | EmptyString => String c EmptyString
        end
      else String c (arg1 rest a)
  end.

(** An [int] as [arg] writes it: decimal digits, a minus sign before a
    negative number. *)
Definition decimal (n : Z) : string := NilZero.string_of_int (Z.to_int n).

(** navigateToHeading, lines 244-253.  [scripts] is what the page was given
    to run with [runJavaScript], oldest first. *)
Definition navigateToHeading (headingSequenceNumber : Z)
    (scripts : list string) : list string :=
  (scripts
   ++ [arg1 "document.getElementById('livepreviewhnbr%1').scrollIntoView()"
         (decimal headingSequenceNumber)])%list.

(** onLoadFinished, lines 333-338. *)
Definition onLoadFinished (ok : bool) (scripts : list string) : list string :=
  if ok then
    (scripts ++ ["document.documentElement.contentEditable = false;"])%list
  else scripts.

(** ** Measures used in the properties *)

(** The longest run of lines two documents start with. *)
Fixpoint commonPrefix (a b : list string) : list string :=
  match a, b with
  | x :: a', y :: b' => if x =? y then x :: commonPrefix a' b' else []
  | _, _ => []
  end.

(** How many of the events are changes of the file path. *)
Definition pathChanges {E : Type} (evs : list (Event E)) : nat :=
  length (filter (fun ev => match ev with
                            | FilePathChanged _ => true
                            | _ => false
                            end) evs).

(** The style sheet of the last [setStyleSheet] among the events, [css]
    when there is none. *)
Definition lastStyleSheet {E : Type} (evs : list (Event E)) (css : string)
  : string :=
  fold_left (fun acc ev => match ev with
                           | CallSetStyleSheet c => c
                           | _ => acc
                           end) evs css.

(** The published markup is the stored render with the anchor between two
    of its lines, or both are empty. *)
Definition publishedMatchesStored {E : Type} (d : HtmlPreview E) : Prop :=
  (vanillaHtml d = "" /\ text (livePreviewHtml d) = "")
  \/ (exists before after : list string,
        lines (vanillaHtml d) = (before ++ after)%list
        /\ text (livePreviewHtml d)
           = emitLines before ++ anchor ++ emitLines after).

(** No request waits unless a render is running. *)
Definition waitsOnlyWhileRendering {E : Type} (d : HtmlPreview E) : Prop :=
  updateAgain d = true -> updateInProgress d = true.

(** The render an event delivers, if it delivers one, contains no anchor:
    for [Finished] that is the output of the oldest running export. *)
Definition eventClean {E : Type} `{Exporter E} (ev : Event E)
    (d : HtmlPreview E) : Prop :=
  match ev with
  | Finished =>
      match running d with
      | (t, e) :: _ => hasAnchor (fst (exportToHtml t e)) = false
      | [] => True
      end
  | _ => True
  end.

(** Every render delivered while the events are handled from [d] on
    contains no anchor. *)
Fixpoint rendersClean {E : Type} `{Exporter E} `{QtPaths}
    (evs : list (Event E)) (d : HtmlPreview E) : Prop :=
  match evs with
  | [] => True
  | ev :: rest => eventClean ev d /\ rendersClean rest (handle ev d)
  end.

(** ** Instances for evaluating the model *)

(** An exporter that wraps the text in a paragraph, with typographic quotes
    around it when smart typography is on. *)
Record ParagraphExporter := {
  smart : bool;
  tag : string
}.

#[export] Instance ParagraphExporter_Exporter : Exporter ParagraphExporter := {
  smartTypographyEnabled := smart;
  setSmartTypographyEnabled := fun b e => {| smart := b; tag := tag e |};
  exporter_exportToHtml := fun t e =>
    "<" ++ tag e ++ ">"
    ++ (if smart e then "&ldquo;" ++ t ++ "&rdquo;" else t)
    ++ "</" ++ tag e ++ ">" ++ nl;
  smart_get_set := fun _ _ => eq_refl;
  smart_set_get := fun e =>
    match e with Build_ParagraphExporter _ _ => eq_refl end;
  smart_set_set := fun _ _ _ => eq_refl
}.

(** An exporter whose markup does not depend on the text. *)
Record RuleExporter := { ruleSmart : bool }.

#[export] Instance RuleExporter_Exporter : Exporter RuleExporter := {
  smartTypographyEnabled := ruleSmart;
  setSmartTypographyEnabled := fun b _ => {| ruleSmart := b |};
  exporter_exportToHtml := fun _ e =>
    if ruleSmart e then "<hr class='smart'>" ++ nl else "<hr>" ++ nl;
  smart_get_set := fun _ _ => eq_refl;
  smart_set_get := fun e => match e with Build_RuleExporter _ => eq_refl end;
  smart_set_set := fun _ _ _ => eq_refl
}.

(** Absolute POSIX paths: the directory is the text before the last slash,
    the URL prefixes the scheme. *)
Fixpoint beforeLastSlash (s : string) : option string :=
  match s with
  | EmptyString => None
  | String c r =>
      match beforeLastSlash r with
      | Some d => Some (String c d)
      | None => if Ascii.eqb c "/"%char then Some "" else None
      end
  end.

#[export] Instance PosixPaths : QtPaths := {
  dir_absolutePath := fun p =>
    match beforeLastSlash p with
    | Some "" => "/"
    | Some d => d
    | None => "."
    end;
  fromLocalFile := fun p => "file://" ++ p
}.

Definition pExporter : ParagraphExporter := {| smart := false; tag := "p" |}.

Definition emptyDocument : MarkdownDocument :=
  {| document_isEmpty := true; toPlainText := Some ""; filePath := None |}.

(** A preview that was shown, started rendering "hello" and was hidden
    before the render ended. *)
Definition hiddenWhileRendering : HtmlPreview ParagraphExporter :=
  run [SetVisible true; TextEdited false (Some "hello"); CallUpdatePreview;
       SetVisible false]
      (HtmlPreview_new emptyDocument (Some pExporter)).

(** A preview that was shown and is rendering "hello". *)
Definition visibleWhileRendering : HtmlPreview ParagraphExporter :=
  run [SetVisible true; TextEdited false (Some "hello"); CallUpdatePreview]
      (HtmlPreview_new emptyDocument (Some pExporter)).

(** The same with an exporter that draws a rule. *)
Definition ruleRendering : HtmlPreview RuleExporter :=
  run [SetVisible true; TextEdited false (Some "hello"); CallUpdatePreview]
      (HtmlPreview_new emptyDocument (Some {| ruleSmart := false |})).

(** A preview that was shown with the text "hello" and has not been asked
    to render. *)
Definition idleVisible : HtmlPreview ParagraphExporter :=
  run [SetVisible true; TextEdited false (Some "hello")]
      (HtmlPreview_new emptyDocument (Some pExporter)).

(** A visible preview that is rendering "hello" while the document was
    emptied and an update requested again. *)
Definition emptiedWhileRendering : HtmlPreview ParagraphExporter :=
  run [SetVisible true; TextEdited false (Some "hello"); CallUpdatePreview;
       TextEdited true (Some ""); CallUpdatePreview]
      (HtmlPreview_new emptyDocument (Some pExporter)).

(** The events of a preview that renders "hello" to the end. *)
Definition renderHello : list (Event ParagraphExporter) :=
  [SetVisible true; TextEdited false (Some "hello"); CallUpdatePreview;
   Finished].

(** A preview that rendered "hello" with a style sheet set, and was hidden
    before the document was emptied. *)
Definition hiddenAfterRender : HtmlPreview ParagraphExporter :=
  run [SetVisible true; CallSetStyleSheet "body { margin: 0 }";
       TextEdited false (Some "hello"); CallUpdatePreview; Finished;
       SetVisible false; TextEdited true (Some "")]
      (HtmlPreview_new emptyDocument (Some pExporter)).

(** * Properties *)

(** ** Strings and lines *)

Lemma append_assoc (a b c : string) : (a ++ b) ++ c = a ++ (b ++ c).
Proof.
  induction a as [|x a IH]; simpl; [reflexivity | now rewrite IH].
Qed.

Lemma append_empty_r (a : string) : a ++ "" = a.
Proof.
  induction a as [|x a IH]; simpl; [reflexivity | now rewrite IH].
Qed.

Example diff_middle :
  diffLines ["a"; "b"; "c"] ["a"; "X"; "c"]
  = ("a" ++ nl ++ anchor ++ "X" ++ nl ++ "c" ++ nl, true).
Proof. reflexivity. Qed.

Example diff_append :
  diffLines ["a"; "b"] ["a"; "b"; "c"]
  = ("a" ++ nl ++ "b" ++ nl ++ anchor ++ "c" ++ nl, true).
Proof. reflexivity. Qed.

Example diff_truncate :
  diffLines ["a"; "b"; "c"] ["a"; "b"]
  = ("a" ++ nl ++ "b" ++ nl ++ anchor, true).
Proof. reflexivity. Qed.

Example diff_same :
  diffLines ["a"; "b"] ["a"; "b"] = ("a" ++ nl ++ "b" ++ nl, false).
Proof. reflexivity. Qed.

Example lines_crlf :
  lines ("a" ++ String CR nl ++ nl ++ "b") = ["a"; ""; "b"].
Proof. reflexivity. Qed.

Example lines_last_unterminated : lines ("a" ++ nl ++ "b") = lines ("a" ++ nl ++ "b" ++ nl).
Proof. reflexivity. Qed.

(** ** The three phases of the diff *)

(** The first loop copies a common prefix and goes on behind it. *)
Lemma scanCommon_prefix (p oldDoc newDoc : list string) (out : string) :
  scanCommon (p ++ oldDoc) (p ++ newDoc) out
  = scanCommon oldDoc newDoc (out ++ emitLines p).
Proof.
  revert out. induction p as [|l p IH]; intros out; simpl.
  - now rewrite append_empty_r.
  - rewrite String.eqb_refl. simpl. rewrite IH.
    now rewrite !append_assoc.
Qed.

(** Once a difference is known the last loop only copies. *)
Lemma copyRemaining_found (newDoc : list string) (out : string) :
  copyRemaining newDoc true out = (true, out ++ emitLines newDoc).
Proof.
  revert out. induction newDoc as [|l newDoc IH]; intros out; simpl.
  - now rewrite append_empty_r.
  - rewrite IH. now rewrite !append_assoc.
Qed.

(** A first unequal pair of lines stops the first loop with the anchor
    written and both lines still to be handled. *)
Lemma scanCommon_differ (a b : string) (oldRest newRest : list string)
    (out : string) :
  a <> b ->
  scanCommon (a :: oldRest) (b :: newRest) out
  = (true, out ++ anchor, a :: oldRest, b :: newRest).
Proof.
  intros Hne. simpl.
  apply String.eqb_neq in Hne. now rewrite Hne.
Qed.

(** Equal documents pass through the diff without an anchor. *)
Lemma diffLines_same (l : list string) : diffLines l l = (emitLines l, false).
Proof.
  unfold diffLines.
  rewrite <- (app_nil_r l) at 1 2.
  rewrite scanCommon_prefix. simpl. reflexivity.
Qed.

(** The diff reports no difference only for equal documents. *)
Lemma diffLines_unchanged (oldDoc newDoc : list string) :
  snd (diffLines oldDoc newDoc) = false -> oldDoc = newDoc.
Proof.
  unfold diffLines. generalize "" as out. revert newDoc.
  induction oldDoc as [|a oldDoc IH]; intros [|b newDoc] out; cbn.
  - reflexivity.
  - rewrite copyRemaining_found. discriminate.
  - discriminate.
  - destruct (String.eqb_spec a b) as [-> | Hne]; cbn.
    + intros Hsame. f_equal. exact (IH newDoc _ Hsame).
    + rewrite copyRemaining_found. discriminate.
Qed.

Example anchored_hasAnchor :
  hasAnchor (fst (diffLines ["a"; "b"] ["a"; "c"])) = true
  /\ hasAnchor (emitLines ["a"; "c"]) = false.
Proof. split; reflexivity. Qed.

(** C3: when the old and the new lines share the prefix [p] and then differ
    in a line both have ([a] in the old, [b] in the new), the diff writes
    the lines of [p], then one anchor, then [b] and every later line of the
    new document, and reports a difference. *)
Theorem diffLines_middle_edit (p : list string) (a b : string)
    (oldRest newRest : list string) :
  a <> b ->
  diffLines (p ++ a :: oldRest) (p ++ b :: newRest)
  = (emitLines p ++ anchor ++ emitLines (b :: newRest), true).
Proof.
  intros Hne. unfold diffLines.
  rewrite scanCommon_prefix, (scanCommon_differ a b _ _ _ Hne).
  cbn [markRemovedTail negb andb].
  rewrite copyRemaining_found.
  now rewrite append_assoc.
Qed.

Lemma diffLines_middle_edit_witness :
  "b" <> "X" /\
  diffLines (["a"] ++ "b" :: ["c"]) (["a"] ++ "X" :: ["c"])
  = (emitLines ["a"] ++ anchor ++ emitLines ("X" :: ["c"]), true).
Proof.
  split.
  - discriminate.
  - apply (diffLines_middle_edit ["a"] "b" "X" ["c"] ["c"]). discriminate.
Defined.

(** C5: when the new lines are the old ones with lines removed at the end,
    the diff writes every new line, then the anchor and nothing behind it,
    and reports a difference. *)
Theorem diffLines_truncated (newDoc : list string) (a : string)
    (removed : list string) :
  diffLines (newDoc ++ a :: removed) newDoc
  = (emitLines newDoc ++ anchor, true).
Proof.
  unfold diffLines.
  rewrite <- (app_nil_r newDoc) at 2.
  rewrite scanCommon_prefix. reflexivity.
Qed.

(** ** Reading lines *)

Lemma scanLine_consumes (s : string) :
  String.length (snd (scanLine s)) <= Nat.pred (String.length s).
Proof.
  induction s as [|c s IH]; [simpl; lia|].
  cbn [scanLine].
  set (keep := let (l, r) := scanLine s in (String c l, r)).
  assert (Hkeep : String.length (snd keep) <= String.length s).
  { subst keep. destruct (scanLine s) as [l r]; simpl in *. lia. }
  clearbody keep. clear IH.
  destruct (Ascii.eqb c LF); [simpl; lia|].
  destruct (Ascii.eqb c CR); [|exact Hkeep].
  destruct s as [|c' s']; [simpl; lia|].
  destruct (Ascii.eqb c' LF); [simpl; lia | exact Hkeep].
Qed.

Lemma readAll_fuel (n m : nat) (s : string) :
  String.length s <= n -> String.length s <= m -> readAll n s = readAll m s.
Proof.
  revert m s. induction n as [|n IH]; intros m s Hn Hm.
  - destruct s; simpl in Hn; [|lia]. now destruct m.
  - destruct m as [|m].
    + destruct s; simpl in Hm; [reflexivity | lia].
    + simpl. destruct s as [|c s]; [reflexivity|].
      unfold readLine.
      pose proof (scanLine_consumes (String c s)) as Hc.
      destruct (scanLine (String c s)) as [l r]. simpl in *.
      f_equal. apply IH; lia.
Qed.

(** [lines] is what repeated [readLine] delivers. *)
Lemma lines_readLine (s : string) :
  lines s = match readLine s with
            | None => []
            | Some (l, r) => l :: lines r
            end.
Proof.
  unfold lines. destruct s as [|c s]; [reflexivity|].
  cbn [String.length readAll]. unfold readLine.
  pose proof (scanLine_consumes (String c s)) as Hc.
  destruct (scanLine (String c s)) as [l r]. simpl in Hc.
  f_equal. apply readAll_fuel; lia.
Qed.

Section Properties.

Context {E : Type} `{Exporter E} `{QtPaths}.

Implicit Types d : HtmlPreview E.

(** ** The renderer adapter *)

Lemma exportToHtml_result (t : string) (e : E) :
  fst (exportToHtml t e)
  = exporter_exportToHtml t (setSmartTypographyEnabled true e).
Proof. reflexivity. Qed.

(** The exporter comes out of a preview export as it went in. *)
Lemma exportToHtml_exporter (t : string) (e : E) :
  snd (exportToHtml t e) = e.
Proof.
  unfold exportToHtml, bind, getSmart, setSmart, callExport, ret. simpl.
  now rewrite smart_set_set, smart_set_get.
Qed.

(** C6: whatever the exporter's smart typography setting is, the exporter
    has the same setting after [exportToHtml] as before it, and the export
    itself runs on the exporter with the setting switched on. *)
Theorem exportToHtml_typography (t : string) (e : E) :
  smartTypographyEnabled (snd (exportToHtml t e)) = smartTypographyEnabled e
  /\ fst (exportToHtml t e)
     = exporter_exportToHtml t (setSmartTypographyEnabled true e)
  /\ smartTypographyEnabled (setSmartTypographyEnabled true e) = true.
Proof.
  split; [|split].
  - unfold exportToHtml, bind, getSmart, setSmart, callExport, ret. simpl.
    apply smart_get_set.
  - reflexivity.
  - apply smart_get_set.
Qed.

(** ** What each method leaves alone *)

Lemma setText_text (t : string) (o : StringObserver) : text (setText t o) = t.
Proof.
  unfold setText. destruct (String.eqb_spec (text o) t); [assumption | reflexivity].
Qed.

Lemma updatePreview_busy d :
  updateInProgress d = true -> updatePreview d = set_updateAgain true d.
Proof. intros Hbusy. unfold updatePreview. now rewrite Hbusy. Qed.

(** An idle preview starts the export its test allows, and no other. *)
Lemma updatePreview_idle_running d :
  updateInProgress d = false ->
  running (updatePreview d) = (running d ++ nextExport d)%list.
Proof.
  intros Hidle. unfold updatePreview, nextExport, canRender.
  rewrite Hidle.
  destruct (visible d); simpl; [|now destruct (exporter d); rewrite app_nil_r].
  destruct (document_isEmpty (document d)); simpl.
  - now destruct (exporter d); rewrite app_nil_r.
  - destruct (exporter d) as [e|]; [|now rewrite app_nil_r].
    destruct (isNull (toPlainText (document d))),
             (isEmpty (toPlainText (document d))); simpl;
      try reflexivity; now rewrite app_nil_r.
Qed.

Lemma nextExport_length d :
  length (nextExport d) = if canRender d then 1 else 0.
Proof.
  unfold nextExport, canRender.
  destruct (exporter d); [|now rewrite andb_false_r].
  match goal with |- context [if ?c then [_] else []] => destruct c end;
    reflexivity.
Qed.

Lemma updatePreview_updateAgain d :
  updateInProgress d = false ->
  updateAgain (updatePreview d) = updateAgain d.
Proof.
  intros Hidle. unfold updatePreview. rewrite Hidle.
  destruct (visible d); [|reflexivity].
  destruct (document_isEmpty (document d)); [reflexivity|].
  destruct (exporter d); [|reflexivity].
  match goal with |- context [if ?c then _ else _] => destruct c end;
    reflexivity.
Qed.

(** The publish step touches the stored render, the published markup and
    the tally, nothing else. *)
Lemma publishRender_frame html d :
  document (publishRender html d) = document d
  /\ updateInProgress (publishRender html d) = updateInProgress d
  /\ updateAgain (publishRender html d) = updateAgain d
  /\ exporter (publishRender html d) = exporter d
  /\ running (publishRender html d) = running d
  /\ visible (publishRender html d) = visible d
  /\ styleSheet (publishRender html d) = styleSheet d.
Proof.
  unfold publishRender.
  destruct (diffLines (lines (vanillaHtml d)) (lines html)) as [a [|]];
    repeat split.
Qed.

Lemma canRender_ext d d' :
  document d = document d' -> exporter d = exporter d' ->
  visible d = visible d' -> canRender d = canRender d'.
Proof. intros Hd He Hv. unfold canRender. now rewrite Hd, He, Hv. Qed.

Lemma nextExport_ext d d' :
  document d = document d' -> exporter d = exporter d' ->
  visible d = visible d' -> nextExport d = nextExport d'.
Proof.
  intros Hd He Hv. unfold nextExport.
  now rewrite (canRender_ext d d' Hd He Hv), Hd, He.
Qed.

(** ** Coalescing *)

(** Any number of requests during a render leave one mark. *)
Lemma updatePreview_iter_busy (n : nat) d :
  updateInProgress d = true -> 1 <= n ->
  Nat.iter n updatePreview d = set_updateAgain true d.
Proof.
  intros Hbusy Hn. induction n as [|n IH]; [lia|].
  destruct n as [|n].
  - simpl. now apply updatePreview_busy.
  - change (Nat.iter (S (S n)) updatePreview d)
      with (updatePreview (Nat.iter (S n) updatePreview d)).
    rewrite IH by lia.
    now rewrite updatePreview_busy.
Qed.

(** When a request is marked, the end of the render clears both flags and
    calls [updatePreview] once. *)
Lemma finishUpdate_again d :
  updateAgain d = true ->
  finishUpdate d
  = updatePreview (set_updateAgain false (set_updateInProgress false d)).
Proof. intros Hagain. unfold finishUpdate. simpl. now rewrite Hagain. Qed.

Lemma finishUpdate_quiet d :
  updateAgain d = false -> finishUpdate d = set_updateInProgress false d.
Proof. intros Hagain. unfold finishUpdate. simpl. now rewrite Hagain. Qed.

(** C1, as the code has it: [n] calls of [updatePreview] during a render
    only set [updateAgain]; when the render ends [onHtmlReady] clears the
    flag and calls [updatePreview] once, which starts one export if the
    widget is visible, the document has text and an exporter is set, and
    none otherwise. *)
Theorem coalesced_requests d (n : nat) (html : string) :
  updateInProgress d = true -> 1 <= n ->
  let d1 := Nat.iter n updatePreview d in
  let d2 := onHtmlReady html d1 in
  d1 = set_updateAgain true d
  /\ d2 = updatePreview
            (set_updateAgain false
               (set_updateInProgress false (publishRender html d1)))
  /\ updateAgain d2 = false
  /\ running d2 = (running d ++ nextExport d)%list
  /\ length (nextExport d) = if canRender d then 1 else 0.
Proof.
  intros Hbusy Hn. cbv zeta.
  rewrite (updatePreview_iter_busy n d Hbusy Hn).
  set (d1 := set_updateAgain true d).
  destruct (publishRender_frame html d1)
    as (Hdoc & _ & Hagain & Hexp & Hrun & Hvis & _).
  assert (Hd2 : onHtmlReady html d1 = updatePreview
            (set_updateAgain false
               (set_updateInProgress false (publishRender html d1)))).
  { unfold onHtmlReady. apply finishUpdate_again. now rewrite Hagain. }
  split; [reflexivity|]. split; [exact Hd2|].
  rewrite Hd2. split; [|split].
  - now rewrite updatePreview_updateAgain.
  - rewrite updatePreview_idle_running by reflexivity.
    cbn [running set_updateAgain set_updateInProgress].
    rewrite Hrun. f_equal.
    apply nextExport_ext; cbn; rewrite ?Hdoc, ?Hexp, ?Hvis; reflexivity.
  - apply nextExport_length.
Qed.

(** ** Renders that change nothing *)

(** C4: when the render has the same lines as the stored one, the diff
    reports no difference and the publish step leaves the preview as it
    was: [setHtmlContent] is not called (the tally stands), nothing is
    published, the stored render is kept.  All [onHtmlReady] then does is
    end the update. *)
Theorem unchanged_render_not_published d (html : string) :
  lines html = lines (vanillaHtml d) ->
  snd (diffLines (lines (vanillaHtml d)) (lines html)) = false
  /\ publishRender html d = d
  /\ count (publishRender html d) = count d
  /\ livePreviewHtml (publishRender html d) = livePreviewHtml d
  /\ vanillaHtml (publishRender html d) = vanillaHtml d
  /\ onHtmlReady html d = finishUpdate d.
Proof.
  intros Hsame.
  assert (Hpub : publishRender html d = d).
  { unfold publishRender. now rewrite Hsame, diffLines_same. }
  unfold onHtmlReady. rewrite Hpub.
  rewrite Hsame, diffLines_same. repeat split.
Qed.

(** ** Visibility *)

(** C7, as the code has it: while the widget is hidden [updatePreview]
    starts no export, publishes nothing and leaves [updateInProgress]
    alone; it changes nothing at all when no render is running, and sets
    [updateAgain] when one is. *)
Theorem updatePreview_hidden d :
  visible d = false ->
  updatePreview d = (if updateInProgress d then set_updateAgain true d else d)
  /\ running (updatePreview d) = running d
  /\ count (updatePreview d) = count d
  /\ livePreviewHtml (updatePreview d) = livePreviewHtml d
  /\ styleSheet (updatePreview d) = styleSheet d
  /\ vanillaHtml (updatePreview d) = vanillaHtml d
  /\ updateInProgress (updatePreview d) = updateInProgress d
  /\ updateAgain (updatePreview d) = (updateInProgress d || updateAgain d).
Proof.
  intros Hhid. unfold updatePreview. rewrite Hhid.
  destruct (updateInProgress d) eqn:Hbusy; repeat split; auto.
Qed.

(** ** Resets *)

Lemma setHtmlContent_fields html d :
  vanillaHtml (setHtmlContent html d) = html
  /\ text (livePreviewHtml (setHtmlContent html d)) = html
  /\ styleSheet (setHtmlContent html d) = styleSheet d
  /\ count (setHtmlContent html d) = S (count d).
Proof. unfold setHtmlContent. cbn. now rewrite setText_text. Qed.

(** [updatePreview] publishes, if at all, the empty markup. *)
Lemma updatePreview_published d :
  (vanillaHtml (updatePreview d) = vanillaHtml d
   /\ livePreviewHtml (updatePreview d) = livePreviewHtml d)
  \/ (vanillaHtml (updatePreview d) = ""
      /\ text (livePreviewHtml (updatePreview d)) = "").
Proof.
  unfold updatePreview.
  destruct (updateInProgress d); [now left|].
  destruct (visible d); [|now left].
  destruct (document_isEmpty (document d)).
  - right. destruct (setHtmlContent_fields "" d) as (Hv & Ht & _). now split.
  - destruct (exporter d); [|now left].
    match goal with |- context [if ?c then _ else _] => destruct c end;
      now left.
Qed.

Lemma updatePreview_idle_vanilla d :
  updateInProgress d = false ->
  vanillaHtml (updatePreview d)
  = if visible d && document_isEmpty (document d) then ""
    else vanillaHtml d.
Proof.
  intros Hidle. unfold updatePreview. rewrite Hidle.
  destruct (visible d); [|reflexivity].
  destruct (document_isEmpty (document d)); [reflexivity|].
  destruct (exporter d); [|reflexivity].
  match goal with |- context [if ?c then _ else _] => destruct c end;
    reflexivity.
Qed.

Lemma updatePreview_styleSheet d :
  styleSheet (updatePreview d) = styleSheet d.
Proof.
  unfold updatePreview.
  destruct (updateInProgress d); [reflexivity|].
  destruct (visible d); [|reflexivity].
  destruct (document_isEmpty (document d)); [reflexivity|].
  destruct (exporter d); [|reflexivity].
  match goal with |- context [if ?c then _ else _] => destruct c end;
    reflexivity.
Qed.

Lemma closeEvent_fields d :
  vanillaHtml (closeEvent d) = ""
  /\ text (livePreviewHtml (closeEvent d)) = ""
  /\ styleSheet (closeEvent d) = styleSheet d.
Proof. unfold closeEvent. cbn. now rewrite setText_text. Qed.

Lemma setHtmlExporter_fields (e : option E) d :
  vanillaHtml (setHtmlExporter e d) = ""
  /\ text (livePreviewHtml (setHtmlExporter e d)) = ""
  /\ styleSheet (setHtmlExporter e d) = styleSheet d.
Proof.
  unfold setHtmlExporter.
  set (d1 := setHtmlContent "" (set_exporter e d)).
  destruct (setHtmlContent_fields "" (set_exporter e d))
    as (Hv & Ht & Hs & _). fold d1 in Hv, Ht, Hs.
  rewrite updatePreview_styleSheet, Hs.
  destruct (updatePreview_published d1) as [[Hv' Hl'] | [Hv' Hl']].
  - now rewrite Hv', Hl', Hv, Ht.
  - now rewrite Hv', Hl'.
Qed.

(** C8, as the code has it: closing the preview and setting another
    exporter leave the stored render and the published markup empty; a
    request to update does so for an empty document when the widget is
    visible and no render is running, and leaves both as they are for an
    empty document otherwise; none of the three touches the style
    sheet. *)
Theorem resets_clear_markup d :
  (vanillaHtml (closeEvent d) = ""
   /\ text (livePreviewHtml (closeEvent d)) = ""
   /\ styleSheet (closeEvent d) = styleSheet d)
  /\ (forall e,
        vanillaHtml (setHtmlExporter e d) = ""
        /\ text (livePreviewHtml (setHtmlExporter e d)) = ""
        /\ styleSheet (setHtmlExporter e d) = styleSheet d)
  /\ (let emptied := set_document
                       {| document_isEmpty := true;
                          toPlainText := toPlainText (document d);
                          filePath := filePath (document d) |} d in
      let reset := negb (updateInProgress d) && visible d in
      vanillaHtml (updatePreview emptied)
      = (if reset then "" else vanillaHtml d)
      /\ text (livePreviewHtml (updatePreview emptied))
         = (if reset then "" else text (livePreviewHtml d))
      /\ styleSheet (updatePreview emptied) = styleSheet d).
Proof.
  split; [apply closeEvent_fields|].
  split; [intros e; apply setHtmlExporter_fields|].
  cbv zeta. unfold updatePreview. cbn.
  destruct (updateInProgress d); [now cbn|].
  destruct (visible d); [|now cbn].
  cbn. now rewrite setText_text.
Qed.

(** ** The base directory *)

Lemma updatePreview_loaded d : loaded (updatePreview d) = loaded d.
Proof.
  unfold updatePreview.
  destruct (updateInProgress d); [reflexivity|].
  destruct (visible d); [|reflexivity].
  destruct (document_isEmpty (document d)); [reflexivity|].
  destruct (exporter d); [|reflexivity].
  match goal with |- context [if ?c then _ else _] => destruct c end;
    reflexivity.
Qed.

Lemma updatePreview_baseUrl d : baseUrl (updatePreview d) = baseUrl d.
Proof.
  unfold updatePreview.
  destruct (updateInProgress d); [reflexivity|].
  destruct (visible d); [|reflexivity].
  destruct (document_isEmpty (document d)); [reflexivity|].
  destruct (exporter d); [|reflexivity].
  match goal with |- context [if ?c then _ else _] => destruct c end;
    reflexivity.
Qed.


(** ** Single flight *)

(** [updatePreview] starts an export only from the idle state, and raises
    the flag with it. *)
Lemma updatePreview_starts d :
  running (updatePreview d) <> running d ->
  updateInProgress d = false
  /\ updateInProgress (updatePreview d) = true
  /\ exists job, running (updatePreview d) = (running d ++ [job])%list.
Proof.
  unfold updatePreview.
  destruct (updateInProgress d); [now intros []|].
  destruct (visible d); [|now intros []].
  destruct (document_isEmpty (document d)); [now intros []|].
  destruct (exporter d) as [e|]; [|now intros []].
  match goal with |- context [if ?c then _ else _] => destruct c end;
    [|now intros []].
  intros _. repeat split. eexists. reflexivity.
Qed.

Lemma updatePreview_singleFlight d :
  singleFlight d -> singleFlight (updatePreview d).
Proof.
  unfold singleFlight, updatePreview.
  destruct (updateInProgress d) eqn:Hbusy; [now cbn; rewrite Hbusy|].
  destruct (visible d); [|now rewrite Hbusy].
  destruct (document_isEmpty (document d)); [now cbn; rewrite Hbusy|].
  destruct (exporter d) as [e|]; [|now rewrite Hbusy].
  match goal with |- context [if ?c then _ else _] => destruct c end;
    [|now rewrite Hbusy].
  cbn. rewrite length_app. cbn. lia.
Qed.

Lemma finishUpdate_singleFlight d :
  running d = [] -> singleFlight (finishUpdate d).
Proof.
  intros Hnone. destruct (updateAgain d) eqn:Hagain.
  - rewrite finishUpdate_again by assumption.
    apply updatePreview_singleFlight. unfold singleFlight. cbn.
    now rewrite Hnone.
  - rewrite finishUpdate_quiet by assumption.
    unfold singleFlight. cbn. now rewrite Hnone.
Qed.

Lemma finished_singleFlight d : singleFlight d -> singleFlight (finished d).
Proof.
  intros Hsf. unfold finished.
  destruct (running d) as [|[t e] rest] eqn:Hrun; [exact Hsf|].
  unfold onHtmlReady. apply finishUpdate_singleFlight.
  destruct (publishRender_frame (fst (exportToHtml t e)) (set_running rest d))
    as (_ & _ & _ & _ & Hr & _).
  rewrite Hr. cbn.
  unfold singleFlight in Hsf. rewrite Hrun in Hsf.
  destruct (updateInProgress d); cbn in Hsf; [|lia].
  destruct rest; [reflexivity | cbn in Hsf; lia].
Qed.

Lemma updateBaseDir_singleFlight d :
  singleFlight d -> singleFlight (updateBaseDir d).
Proof.
  intros Hsf. unfold updateBaseDir. apply updatePreview_singleFlight.
  exact Hsf.
Qed.

Lemma handle_singleFlight (ev : Event E) d :
  singleFlight d -> singleFlight (handle ev d).
Proof.
  intros Hsf. destruct ev; cbn [handle].
  - now apply updatePreview_singleFlight.
  - unfold setHtmlExporter. apply updatePreview_singleFlight. exact Hsf.
  - exact Hsf.
  - exact Hsf.
  - apply updateBaseDir_singleFlight. exact Hsf.
  - exact Hsf.
  - exact Hsf.
  - now apply finished_singleFlight.
Qed.

Lemma reachable_singleFlight d : reachable d -> singleFlight d.
Proof.
  induction 1 as [doc e | ev d _ IH].
  - unfold HtmlPreview_new. apply updateBaseDir_singleFlight. reflexivity.
  - now apply handle_singleFlight.
Qed.

Lemma reachable_run (evs : list (Event E)) d :
  reachable d -> reachable (run evs d).
Proof.
  revert d. induction evs as [|ev evs IH]; intros d Hd; [exact Hd|].
  cbn. apply IH. now apply reachable_step.
Qed.

(** C2: in every state a preview can reach, through any sequence of calls,
    signals and finished renders, at most one export is running, and one is
    running exactly when [updateInProgress] is set; [updatePreview] starts
    an export only when [updateInProgress] is false, and sets it. *)
Theorem single_flight d :
  reachable d ->
  length (running d) <= 1
  /\ (updateInProgress d = true <-> length (running d) = 1)
  /\ (forall d0 : HtmlPreview E,
        running (updatePreview d0) <> running d0 ->
        updateInProgress d0 = false
        /\ updateInProgress (updatePreview d0) = true)
  /\ (forall ev,
        length (running d) < length (running (handle ev d)) ->
        updateInProgress d = false /\ running d = []
        /\ length (running (handle ev d)) = 1).
Proof.
  intros Hreach.
  pose proof (reachable_singleFlight d Hreach) as Hsf.
  pose proof Hsf as Hlen. unfold singleFlight in Hlen.
  split; [|split; [|split]].
  - destruct (updateInProgress d); lia.
  - destruct (updateInProgress d); split; intros; try lia; congruence.
  - intros d0 Hstart. destruct (updatePreview_starts d0 Hstart) as (? & ? & _).
    now split.
  - intros ev Hmore.
    pose proof (handle_singleFlight ev d Hsf) as Hsf'.
    unfold singleFlight in Hsf'.
    destruct (updateInProgress (handle ev d)); [|lia].
    destruct (updateInProgress d); [lia|].
    repeat split; try assumption.
    now apply length_zero_iff_nil.
Qed.

(** ** The stored render *)

(** What the publish step does when the diff finds a difference. *)
Lemma publishRender_changed html d :
  snd (diffLines (lines (vanillaHtml d)) (lines html)) = true ->
  vanillaHtml (publishRender html d) = html
  /\ text (livePreviewHtml (publishRender html d))
     = fst (diffLines (lines (vanillaHtml d)) (lines html))
  /\ count (publishRender html d) = S (count d).
Proof.
  unfold publishRender.
  destruct (diffLines (lines (vanillaHtml d)) (lines html)) as [a f].
  cbn [snd fst]. intros ->. cbn. now rewrite setText_text.
Qed.

Lemma publishRender_vanilla html d :
  vanillaHtml (publishRender html d) = html
  \/ vanillaHtml (publishRender html d) = vanillaHtml d.
Proof.
  unfold publishRender.
  destruct (diffLines (lines (vanillaHtml d)) (lines html)) as [a [|]];
    [now left | now right].
Qed.

(** A render that was just published, rendered again, is not published
    again. *)
Lemma publishRender_twice html d :
  publishRender html (publishRender html d) = publishRender html d.
Proof.
  destruct (snd (diffLines (lines (vanillaHtml d)) (lines html))) eqn:Hdiff.
  - destruct (publishRender_changed html d Hdiff) as (Hv & _).
    unfold publishRender at 1. now rewrite Hv, diffLines_same.
  - assert (Hsame : publishRender html d = d).
    { unfold publishRender.
      destruct (diffLines (lines (vanillaHtml d)) (lines html)) as [a f].
      cbn in Hdiff. now rewrite Hdiff. }
    now rewrite !Hsame.
Qed.

Lemma updatePreview_clean d :
  hasAnchor (vanillaHtml d) = false ->
  hasAnchor (vanillaHtml (updatePreview d)) = false.
Proof.
  intros Hclean.
  destruct (updatePreview_published d) as [[Hv _] | [Hv _]]; now rewrite Hv.
Qed.

Lemma finished_clean d :
  eventClean Finished d ->
  hasAnchor (vanillaHtml d) = false ->
  hasAnchor (vanillaHtml (finished d)) = false.
Proof.
  unfold eventClean, finished. intros Hrender Hclean.
  destruct (running d) as [|[t e] rest]; [exact Hclean|].
  unfold onHtmlReady.
  set (html := fst (exportToHtml t e)) in *.
  assert (Hpub : hasAnchor
            (vanillaHtml (publishRender html (set_running rest d))) = false).
  { destruct (publishRender_vanilla html (set_running rest d)) as [Hv | Hv];
      rewrite Hv; [exact Hrender | exact Hclean]. }
  destruct (updateAgain (publishRender html (set_running rest d)))
    eqn:Hagain.
  - rewrite finishUpdate_again by assumption.
    apply updatePreview_clean. exact Hpub.
  - rewrite finishUpdate_quiet by assumption. exact Hpub.
Qed.

Lemma handle_clean (ev : Event E) d :
  eventClean ev d ->
  hasAnchor (vanillaHtml d) = false ->
  hasAnchor (vanillaHtml (handle ev d)) = false.
Proof.
  intros Hrender Hclean. destruct ev; cbn [handle].
  - now apply updatePreview_clean.
  - destruct (setHtmlExporter_fields e d) as (Hv & _). now rewrite Hv.
  - exact Hclean.
  - destruct (closeEvent_fields d) as (Hv & _). now rewrite Hv.
  - unfold updateBaseDir. apply updatePreview_clean. exact Hclean.
  - exact Hclean.
  - exact Hclean.
  - now apply finished_clean.
Qed.

Lemma run_clean (evs : list (Event E)) :
  forall d,
    rendersClean evs d ->
    hasAnchor (vanillaHtml d) = false ->
    hasAnchor (vanillaHtml (run evs d)) = false.
Proof.
  induction evs as [|ev evs IH]; intros d Hrenders Hclean; [exact Hclean|].
  destruct Hrenders as [Hev Hrest].
  change (run (ev :: evs) d) with (run evs (handle ev d)).
  apply IH; [exact Hrest | now apply handle_clean].
Qed.

(** Exporters whose output never contains the anchor deliver clean
    renders whatever the state. *)
Lemma eventClean_always (ev : Event E) d :
  (forall (t : string) (e : E),
      hasAnchor (exporter_exportToHtml t e) = false) ->
  eventClean ev d.
Proof.
  intros Hclean. destruct ev; unfold eventClean; try exact I.
  destruct (running d) as [|[t e] rest]; [exact I|].
  rewrite exportToHtml_result. apply Hclean.
Qed.

Lemma reachable_clean d :
  (forall (t : string) (e : E),
      hasAnchor (exporter_exportToHtml t e) = false) ->
  reachable d -> hasAnchor (vanillaHtml d) = false.
Proof.
  intros Hclean. induction 1 as [doc e | ev d _ IH].
  - unfold HtmlPreview_new, updateBaseDir. apply updatePreview_clean.
    reflexivity.
  - apply handle_clean; [now apply eventClean_always | exact IH].
Qed.

(** A render equal to the stored one passes the publish step without a
    trace. *)
Lemma publishRender_stored html d :
  vanillaHtml d = html -> publishRender html d = d.
Proof.
  intros <-. unfold publishRender. now rewrite diffLines_same.
Qed.

(** The stored render when [onHtmlReady] returns from a render that was
    published. *)
Lemma onHtmlReady_vanilla html d :
  snd (diffLines (lines (vanillaHtml d)) (lines html)) = true ->
  vanillaHtml (onHtmlReady html d)
  = if updateAgain d && visible d && document_isEmpty (document d)
    then "" else html.
Proof.
  intros Hdiff.
  destruct (publishRender_changed html d Hdiff) as (Hv & _).
  destruct (publishRender_frame html d)
    as (Hdoc & _ & Hagain & _ & _ & Hvis & _).
  unfold onHtmlReady.
  destruct (updateAgain d) eqn:Hwait.
  - rewrite finishUpdate_again by (now rewrite Hagain).
    rewrite updatePreview_idle_vanilla by reflexivity.
    cbn [visible document vanillaHtml set_updateAgain set_updateInProgress].
    now rewrite Hvis, Hdoc, Hv.
  - rewrite finishUpdate_quiet by (now rewrite Hagain). exact Hv.
Qed.

(** C10, as the code has it.  In any state and for any render [html] that
    is published: [setHtmlContent] first stores the anchored markup; after
    the publish step (lines 319-322) the stored render is [html] itself and
    the published markup the anchored one; when [onHtmlReady] returns the
    stored render is still [html], unless a request that waited is replayed
    on a visible preview whose document is empty, which clears it; and
    where it is [html], the same render arriving again is not published.
    In any state the publish step run twice on one render publishes at most
    once.  Along every run from the constructor in which the renders that
    finish contain no anchor, the stored render contains none; so it
    contains none in any reachable state if no exporter output does. *)
Theorem baseline_is_vanilla_render :
  (forall d (html : string),
      snd (diffLines (lines (vanillaHtml d)) (lines html)) = true ->
      let anchored := fst (diffLines (lines (vanillaHtml d)) (lines html)) in
      let cleared :=
        updateAgain d && visible d && document_isEmpty (document d) in
      vanillaHtml (setHtmlContent anchored d) = anchored
      /\ vanillaHtml (publishRender html d) = html
      /\ text (livePreviewHtml (publishRender html d)) = anchored
      /\ vanillaHtml (onHtmlReady html d) = (if cleared then "" else html)
      /\ (cleared = false ->
          publishRender html (onHtmlReady html d) = onHtmlReady html d))
  /\ (forall d (html : string),
        publishRender html (publishRender html d) = publishRender html d)
  /\ (forall (doc : MarkdownDocument) (e : option E) (evs : list (Event E)),
        rendersClean evs (HtmlPreview_new doc e) ->
        hasAnchor (vanillaHtml (run evs (HtmlPreview_new doc e))) = false)
  /\ ((forall (t : string) (e : E),
          hasAnchor (exporter_exportToHtml t e) = false) ->
      forall d, reachable d -> hasAnchor (vanillaHtml d) = false).
Proof.
  split; [|split; [|split]].
  - intros d html Hdiff anchored cleared.
    destruct (publishRender_changed html d Hdiff) as (Hv & Ht & _).
    pose proof (onHtmlReady_vanilla html d Hdiff) as Hend.
    fold cleared in Hend.
    split; [reflexivity|]. split; [exact Hv|]. split; [exact Ht|].
    split; [exact Hend|].
    intros Hkept. rewrite Hkept in Hend.
    now apply publishRender_stored.
  - intros d html. apply publishRender_twice.
  - intros doc e evs Hrenders. apply run_clean; [exact Hrenders|].
    reflexivity.
  - intros Hclean d Hreach. now apply reachable_clean.
Qed.

End Properties.

(** * The properties on sample previews *)

Example exportToHtml_paragraph :
  exportToHtml "hello" pExporter
  = ("<p>&ldquo;hello&rdquo;</p>" ++ nl, pExporter).
Proof. reflexivity. Qed.

Example posix_base :
  baseLocation {| document_isEmpty := false; toPlainText := Some "x";
                  filePath := Some "/home/u/notes.md" |}
  = "file:///home/u/".
Proof. reflexivity. Qed.

Lemma coalesced_requests_witness :
  updateInProgress visibleWhileRendering = true /\ 1 <= 3 /\
  (let d1 := Nat.iter 3 updatePreview visibleWhileRendering in
   let d2 := onHtmlReady "<p>hello</p>" d1 in
   d1 = set_updateAgain true visibleWhileRendering
   /\ d2 = updatePreview
             (set_updateAgain false
                (set_updateInProgress false
                   (publishRender "<p>hello</p>" d1)))
   /\ updateAgain d2 = false
   /\ running d2
      = (running visibleWhileRendering
         ++ nextExport visibleWhileRendering)%list
   /\ length (nextExport visibleWhileRendering)
      = if canRender visibleWhileRendering then 1 else 0).
Proof.
  split; [vm_compute; reflexivity|]. split; [lia|].
  apply (coalesced_requests visibleWhileRendering 3 "<p>hello</p>");
    [vm_compute; reflexivity | lia].
Defined.

(** C1 as stated fails: the widget was hidden during the render, two
    requests arrived, and the end of the render starts no export. *)
Lemma coalesced_requests_counterexample :
  updateInProgress hiddenWhileRendering = true
  /\ length (running
               (onHtmlReady "<p>hello</p>"
                  (Nat.iter 2 updatePreview hiddenWhileRendering)))
     <> S (length (running hiddenWhileRendering))
  /\ running (finished (Nat.iter 2 updatePreview hiddenWhileRendering)) = [].
Proof.
  split; [vm_compute; reflexivity|]. split; [|vm_compute; reflexivity].
  vm_compute. discriminate.
Qed.

Lemma single_flight_witness :
  reachable visibleWhileRendering /\
  (length (running visibleWhileRendering) <= 1
   /\ (updateInProgress visibleWhileRendering = true
       <-> length (running visibleWhileRendering) = 1)
   /\ (forall d0 : HtmlPreview ParagraphExporter,
         running (updatePreview d0) <> running d0 ->
         updateInProgress d0 = false
         /\ updateInProgress (updatePreview d0) = true)
   /\ (forall ev,
         length (running visibleWhileRendering)
         < length (running (handle ev visibleWhileRendering)) ->
         updateInProgress visibleWhileRendering = false
         /\ running visibleWhileRendering = []
         /\ length (running (handle ev visibleWhileRendering)) = 1)).
Proof.
  assert (Hreach : reachable visibleWhileRendering).
  { unfold visibleWhileRendering. apply reachable_run, reachable_new. }
  split; [exact Hreach|].
  apply (single_flight visibleWhileRendering Hreach).
Defined.

Lemma unchanged_render_not_published_witness :
  lines "<p>&ldquo;hello&rdquo;</p>" = lines (vanillaHtml hiddenAfterRender) /\
  (snd (diffLines (lines (vanillaHtml hiddenAfterRender))
          (lines "<p>&ldquo;hello&rdquo;</p>")) = false
   /\ publishRender "<p>&ldquo;hello&rdquo;</p>" hiddenAfterRender
      = hiddenAfterRender
   /\ count (publishRender "<p>&ldquo;hello&rdquo;</p>" hiddenAfterRender)
      = count hiddenAfterRender
   /\ livePreviewHtml
        (publishRender "<p>&ldquo;hello&rdquo;</p>" hiddenAfterRender)
      = livePreviewHtml hiddenAfterRender
   /\ vanillaHtml
        (publishRender "<p>&ldquo;hello&rdquo;</p>" hiddenAfterRender)
      = vanillaHtml hiddenAfterRender
   /\ onHtmlReady "<p>&ldquo;hello&rdquo;</p>" hiddenAfterRender
      = finishUpdate hiddenAfterRender).
Proof.
  split; [vm_compute; reflexivity|].
  apply (unchanged_render_not_published hiddenAfterRender
           "<p>&ldquo;hello&rdquo;</p>").
  vm_compute; reflexivity.
Defined.

Lemma updatePreview_hidden_witness :
  visible hiddenWhileRendering = false /\
  (updatePreview hiddenWhileRendering
   = (if updateInProgress hiddenWhileRendering
      then set_updateAgain true hiddenWhileRendering
      else hiddenWhileRendering)
   /\ running (updatePreview hiddenWhileRendering)
      = running hiddenWhileRendering
   /\ count (updatePreview hiddenWhileRendering) = count hiddenWhileRendering
   /\ livePreviewHtml (updatePreview hiddenWhileRendering)
      = livePreviewHtml hiddenWhileRendering
   /\ styleSheet (updatePreview hiddenWhileRendering)
      = styleSheet hiddenWhileRendering
   /\ vanillaHtml (updatePreview hiddenWhileRendering)
      = vanillaHtml hiddenWhileRendering
   /\ updateInProgress (updatePreview hiddenWhileRendering)
      = updateInProgress hiddenWhileRendering
   /\ updateAgain (updatePreview hiddenWhileRendering)
      = (updateInProgress hiddenWhileRendering
         || updateAgain hiddenWhileRendering)).
Proof.
  split; [vm_compute; reflexivity|].
  apply (updatePreview_hidden hiddenWhileRendering). vm_compute; reflexivity.
Defined.

(** C7 as stated fails: hidden, with a render running, [updatePreview]
    sets [updateAgain]. *)
Lemma updatePreview_hidden_counterexample :
  visible hiddenWhileRendering = false
  /\ updateAgain hiddenWhileRendering = false
  /\ updateAgain (updatePreview hiddenWhileRendering) = true
  /\ updatePreview hiddenWhileRendering <> hiddenWhileRendering.
Proof.
  split; [vm_compute; reflexivity|].
  split; [vm_compute; reflexivity|].
  split; [vm_compute; reflexivity|].
  intros Heq.
  apply (f_equal updateAgain) in Heq. vm_compute in Heq. discriminate.
Qed.

(** C8 as stated fails: the style sheet outlives a close and a change of
    exporter, and an update requested for an empty document while the
    widget is hidden leaves the stored render and the published markup. *)
Lemma resets_clear_markup_counterexample :
  text (styleSheet hiddenAfterRender) = "body { margin: 0 }"
  /\ text (styleSheet (closeEvent hiddenAfterRender)) = "body { margin: 0 }"
  /\ text (styleSheet (setHtmlExporter None hiddenAfterRender))
     = "body { margin: 0 }"
  /\ document_isEmpty (document hiddenAfterRender) = true
  /\ vanillaHtml (updatePreview hiddenAfterRender)
     = "<p>&ldquo;hello&rdquo;</p>" ++ nl
  /\ text (livePreviewHtml (updatePreview hiddenAfterRender))
     = anchor ++ "<p>&ldquo;hello&rdquo;</p>" ++ nl.
Proof. repeat split; vm_compute; reflexivity. Qed.

Lemma baseline_is_vanilla_render_witness :
  let d := visibleWhileRendering in
  let html := fst (exportToHtml "hello" pExporter) in
  let anchored := fst (diffLines (lines (vanillaHtml d)) (lines html)) in
  snd (diffLines (lines (vanillaHtml d)) (lines html)) = true
  /\ updateAgain d && visible d && document_isEmpty (document d) = false
  /\ rendersClean renderHello (HtmlPreview_new emptyDocument (Some pExporter))
  /\ (forall (t : string) (e : RuleExporter),
        hasAnchor (exporter_exportToHtml t e) = false)
  /\ reachable ruleRendering
  /\ (vanillaHtml (setHtmlContent anchored d) = anchored
      /\ vanillaHtml (publishRender html d) = html
      /\ text (livePreviewHtml (publishRender html d)) = anchored
      /\ vanillaHtml (onHtmlReady html d) = html
      /\ publishRender html (onHtmlReady html d) = onHtmlReady html d
      /\ publishRender html (publishRender html d) = publishRender html d
      /\ hasAnchor
           (vanillaHtml
              (run renderHello
                 (HtmlPreview_new emptyDocument (Some pExporter)))) = false
      /\ hasAnchor (vanillaHtml ruleRendering) = false).
Proof.
  cbv zeta.
  assert (Hdiff : snd (diffLines (lines (vanillaHtml visibleWhileRendering))
                         (lines (fst (exportToHtml "hello" pExporter))))
                  = true) by (vm_compute; reflexivity).
  assert (Hkept : updateAgain visibleWhileRendering
                  && visible visibleWhileRendering
                  && document_isEmpty (document visibleWhileRendering)
                  = false) by (vm_compute; reflexivity).
  assert (Hrenders : rendersClean renderHello
                       (HtmlPreview_new emptyDocument (Some pExporter))).
  { vm_compute. repeat split. }
  assert (Hclean : forall (t : string) (e : RuleExporter),
             hasAnchor (exporter_exportToHtml t e) = false).
  { intros t [[|]]; vm_compute; reflexivity. }
  assert (Hreach : reachable ruleRendering).
  { unfold ruleRendering. apply reachable_run, reachable_new. }
  destruct (baseline_is_vanilla_render (E := ParagraphExporter))
    as (Hpublished & Htwice & Hrun & _).
  destruct (baseline_is_vanilla_render (E := RuleExporter))
    as (_ & _ & _ & Hglobal).
  destruct (Hpublished visibleWhileRendering
              (fst (exportToHtml "hello" pExporter)) Hdiff)
    as (Hfirst & Hv & Ht & Hend & Hagain).
  rewrite Hkept in Hend.
  split; [exact Hdiff|]. split; [exact Hkept|]. split; [exact Hrenders|].
  split; [exact Hclean|]. split; [exact Hreach|].
  split; [exact Hfirst|]. split; [exact Hv|]. split; [exact Ht|].
  split; [exact Hend|]. split; [exact (Hagain Hkept)|].
  split; [apply Htwice|].
  split; [exact (Hrun emptyDocument (Some pExporter) renderHello Hrenders)|].
  exact (Hglobal Hclean ruleRendering Hreach).
Defined.

(** C10 as stated fails: the document was emptied and an update requested
    during the render; the render is published, and when [onHtmlReady]
    returns the replayed request has cleared the stored render. *)
Lemma baseline_is_vanilla_render_counterexample :
  let d := emptiedWhileRendering in
  let html := fst (exportToHtml "hello" pExporter) in
  reachable d
  /\ running d = [("hello", pExporter)]
  /\ finished d = onHtmlReady html (set_running [] d)
  /\ snd (diffLines (lines (vanillaHtml d)) (lines html)) = true
  /\ textChanged (livePreviewHtml (finished d)) = [anchor ++ html; ""]
  /\ vanillaHtml (finished d) = ""
  /\ vanillaHtml (finished d) <> html.
Proof.
  cbv zeta.
  split; [unfold emptiedWhileRendering; apply reachable_run, reachable_new|].
  split; [vm_compute; reflexivity|]. split; [vm_compute; reflexivity|].
  split; [vm_compute; reflexivity|]. split; [vm_compute; reflexivity|].
  split; [vm_compute; reflexivity|].
  vm_compute. discriminate.
Qed.

(** * Further properties *)

(** ** The shape of the anchored markup *)

Lemma commonPrefix_split (oldDoc newDoc : list string) :
  newDoc
  = (commonPrefix oldDoc newDoc
     ++ skipn (length (commonPrefix oldDoc newDoc)) newDoc)%list.
Proof.
  revert newDoc.
  induction oldDoc as [|a oldDoc IH]; intros [|b newDoc]; cbn;
    try reflexivity.
  destruct (String.eqb_spec a b) as [-> | Hne]; cbn;
    [f_equal; apply IH | reflexivity].
Qed.

Lemma commonPrefix_old (oldDoc newDoc : list string) :
  oldDoc
  = (commonPrefix oldDoc newDoc
     ++ skipn (length (commonPrefix oldDoc newDoc)) oldDoc)%list.
Proof.
  revert newDoc.
  induction oldDoc as [|a oldDoc IH]; intros [|b newDoc]; cbn;
    try reflexivity.
  destruct (String.eqb_spec a b) as [-> | Hne]; cbn;
    [f_equal; apply IH | reflexivity].
Qed.

(** The three phases from any text already written. *)
Lemma diff_phases_from (oldDoc : list string) :
  forall (newDoc : list string) (out : string),
    (let '(found1, out1, oldDoc1, newDoc1) := scanCommon oldDoc newDoc out in
     let '(found2, out2) := markRemovedTail found1 oldDoc1 newDoc1 out1 in
     let '(found3, out3) := copyRemaining newDoc1 found2 out2 in
     (out3, found3))
    = if list_eq_dec string_dec oldDoc newDoc then
        (out ++ emitLines newDoc, false)
      else
        (out ++ emitLines (commonPrefix oldDoc newDoc) ++ anchor
             ++ emitLines
                  (skipn (length (commonPrefix oldDoc newDoc)) newDoc),
         true).
Proof.
  induction oldDoc as [|a oldDoc IH]; intros [|b newDoc] out.
  - destruct (list_eq_dec string_dec [] []); [|congruence].
    cbn. now rewrite append_empty_r.
  - cbn [scanCommon markRemovedTail negb andb copyRemaining].
    rewrite copyRemaining_found.
    destruct (list_eq_dec string_dec [] (b :: newDoc)); [discriminate|].
    cbn. now rewrite !append_assoc.
  - destruct (list_eq_dec string_dec (a :: oldDoc) []); [discriminate|].
    cbn -[anchor]. now rewrite append_empty_r.
  - cbn [scanCommon commonPrefix].
    destruct (String.eqb_spec a b) as [-> | Hne]; cbn [negb].
    + rewrite IH.
      destruct (list_eq_dec string_dec oldDoc newDoc) as [-> | Hne];
        destruct (list_eq_dec string_dec (b :: newDoc) (b :: newDoc))
          as [_ | Hne'];
        try congruence.
      * cbn. now rewrite !append_assoc.
      * destruct (list_eq_dec string_dec (b :: oldDoc) (b :: newDoc))
          as [Heq | _]; [congruence|].
        cbn. now rewrite !append_assoc.
    + cbn [markRemovedTail negb andb]. rewrite copyRemaining_found.
      destruct (list_eq_dec string_dec (a :: oldDoc) (b :: newDoc));
        [congruence|].
      cbn. now rewrite !append_assoc.
Qed.

Lemma diffLines_shape (oldDoc newDoc : list string) :
  diffLines oldDoc newDoc
  = if list_eq_dec string_dec oldDoc newDoc then (emitLines newDoc, false)
    else (emitLines (commonPrefix oldDoc newDoc) ++ anchor
            ++ emitLines
                 (skipn (length (commonPrefix oldDoc newDoc)) newDoc), true).
Proof. unfold diffLines. now rewrite diff_phases_from. Qed.

(** X1: for all old and new lines the diff reports a difference exactly
    when they differ, and the anchored markup is the lines the two start
    with in common, then the anchor if they differ, then the remaining new
    lines; each line is followed by a line feed. *)
Theorem diffLines_structure (oldDoc newDoc : list string) :
  let common := commonPrefix oldDoc newDoc in
  newDoc = (common ++ skipn (length common) newDoc)%list
  /\ oldDoc = (common ++ skipn (length common) oldDoc)%list
  /\ diffLines oldDoc newDoc
     = if list_eq_dec string_dec oldDoc newDoc then (emitLines newDoc, false)
       else (emitLines common ++ anchor
               ++ emitLines (skipn (length common) newDoc), true).
Proof.
  cbv zeta. split; [apply commonPrefix_split|].
  split; [apply commonPrefix_old | apply diffLines_shape].
Qed.

(** X2: when lines were only added at the end, the anchor stands before
    the first added line; with no old lines at all it stands at the very
    top. *)
Theorem diffLines_appended (oldDoc : list string) (c : string)
    (added : list string) :
  diffLines oldDoc (oldDoc ++ c :: added)
  = (emitLines oldDoc ++ anchor ++ emitLines (c :: added), true).
Proof.
  unfold diffLines.
  rewrite <- (app_nil_r oldDoc) at 1.
  rewrite scanCommon_prefix.
  cbn [scanCommon markRemovedTail negb andb copyRemaining].
  rewrite copyRemaining_found.
  cbn -[anchor]. now rewrite !append_assoc.
Qed.

Lemma diffLines_appended_from_nothing (c : string) (added : list string) :
  diffLines [] (c :: added) = (anchor ++ emitLines (c :: added), true).
Proof.
  unfold diffLines.
  cbn [scanCommon markRemovedTail negb andb copyRemaining].
  rewrite copyRemaining_found.
  cbn -[anchor]. now rewrite !append_assoc.
Qed.

(** ** The anchor in what is published *)

Lemma substring_whole (x b : string) :
  substring 0 (String.length x) (x ++ b) = x.
Proof.
  induction x as [|c x IH]; cbn; [now destruct b | now rewrite IH].
Qed.

Lemma substring_middle (a x b : string) :
  substring (String.length a) (String.length x) (a ++ x ++ b) = x.
Proof.
  induction a as [|c a IH]; cbn; [apply substring_whole | exact IH].
Qed.

Lemma hasAnchor_inserted (a b : string) : hasAnchor (a ++ anchor ++ b) = true.
Proof.
  unfold hasAnchor.
  destruct (index 0 anchor (a ++ anchor ++ b)) eqn:Hindex; [reflexivity|].
  exfalso.
  apply (index_correct3 0 (String.length a) anchor _ Hindex).
  - discriminate.
  - lia.
  - apply substring_middle.
Qed.

(** X3: whenever the diff reports a difference, the markup it hands to
    [setHtmlContent] contains the anchor the page scrolls to. *)
Theorem diffLines_changed_hasAnchor (oldDoc newDoc : list string) :
  snd (diffLines oldDoc newDoc) = true ->
  hasAnchor (fst (diffLines oldDoc newDoc)) = true.
Proof.
  rewrite diffLines_shape.
  destruct (list_eq_dec string_dec oldDoc newDoc); cbn; [discriminate|].
  intros _. apply hasAnchor_inserted.
Qed.

Section Coverage.

Context {E : Type} `{Exporter E} `{QtPaths}.

Implicit Types d : HtmlPreview E.

Ltac split_updatePreview d :=
  unfold updatePreview;
  destruct (updateInProgress d) eqn:?;
  [|destruct (visible d) eqn:?;
    [destruct (document_isEmpty (document d)) eqn:?;
     [|destruct (exporter d) eqn:?;
       [match goal with |- context [if ?c then _ else _] => destruct c end|]]
    |]].

(** ** What the methods leave alone, continued *)

Lemma updatePreview_static d :
  wrapperHtml (updatePreview d) = wrapperHtml d
  /\ document (updatePreview d) = document d
  /\ exporter (updatePreview d) = exporter d
  /\ visible (updatePreview d) = visible d.
Proof. split_updatePreview d; repeat split; cbn; congruence. Qed.

Lemma publishRender_static html d :
  wrapperHtml (publishRender html d) = wrapperHtml d
  /\ loaded (publishRender html d) = loaded d
  /\ baseUrl (publishRender html d) = baseUrl d.
Proof.
  unfold publishRender.
  destruct (diffLines (lines (vanillaHtml d)) (lines html)) as [a [|]];
    repeat split.
Qed.

Lemma publishRender_unchanged html d :
  snd (diffLines (lines (vanillaHtml d)) (lines html)) = false ->
  publishRender html d = d.
Proof.
  unfold publishRender.
  destruct (diffLines (lines (vanillaHtml d)) (lines html)) as [a f].
  cbn. now intros ->.
Qed.

Lemma finishUpdate_static d :
  wrapperHtml (finishUpdate d) = wrapperHtml d
  /\ loaded (finishUpdate d) = loaded d
  /\ baseUrl (finishUpdate d) = baseUrl d
  /\ styleSheet (finishUpdate d) = styleSheet d
  /\ document (finishUpdate d) = document d
  /\ exporter (finishUpdate d) = exporter d
  /\ visible (finishUpdate d) = visible d.
Proof.
  destruct (updateAgain d) eqn:Hagain.
  - rewrite finishUpdate_again by assumption.
    rewrite updatePreview_loaded, updatePreview_baseUrl,
      updatePreview_styleSheet.
    destruct (updatePreview_static
                (set_updateAgain false (set_updateInProgress false d)))
      as (-> & -> & -> & ->).
    repeat split.
  - rewrite finishUpdate_quiet by assumption. repeat split.
Qed.

Lemma finished_step d (t : string) (e : E) (rest : list (string * E)) :
  running d = (t, e) :: rest ->
  finished d = onHtmlReady (fst (exportToHtml t e)) (set_running rest d).
Proof. intros Hrun. unfold finished. now rewrite Hrun. Qed.

Lemma finished_static d :
  wrapperHtml (finished d) = wrapperHtml d
  /\ loaded (finished d) = loaded d
  /\ baseUrl (finished d) = baseUrl d
  /\ styleSheet (finished d) = styleSheet d
  /\ document (finished d) = document d
  /\ exporter (finished d) = exporter d
  /\ visible (finished d) = visible d.
Proof.
  unfold finished. destruct (running d) as [|[t e] rest]; [repeat split|].
  unfold onHtmlReady.
  set (html := fst (exportToHtml t e)).
  destruct (finishUpdate_static (publishRender html (set_running rest d)))
    as (-> & -> & -> & -> & -> & -> & ->).
  destruct (publishRender_static html (set_running rest d))
    as (-> & -> & ->).
  destruct (publishRender_frame html (set_running rest d))
    as (-> & _ & _ & -> & _ & -> & ->).
  repeat split.
Qed.

(** ** The two flags *)

Lemma finishUpdate_updateAgain d : updateAgain (finishUpdate d) = false.
Proof.
  destruct (updateAgain d) eqn:Hagain.
  - rewrite finishUpdate_again by assumption.
    now rewrite updatePreview_updateAgain.
  - rewrite finishUpdate_quiet by assumption. exact Hagain.
Qed.

Lemma updatePreview_waits d :
  waitsOnlyWhileRendering d -> waitsOnlyWhileRendering (updatePreview d).
Proof.
  unfold waitsOnlyWhileRendering. intros Hd.
  destruct (updateInProgress d) eqn:Hbusy.
  - rewrite updatePreview_busy by assumption. cbn. now intros _.
  - rewrite updatePreview_updateAgain by assumption.
    intros Hagain. specialize (Hd Hagain). congruence.
Qed.

Lemma finished_waits d :
  waitsOnlyWhileRendering d -> waitsOnlyWhileRendering (finished d).
Proof.
  intros Hd. unfold finished.
  destruct (running d) as [|[t e] rest]; [exact Hd|].
  unfold waitsOnlyWhileRendering, onHtmlReady.
  now rewrite finishUpdate_updateAgain.
Qed.

Lemma handle_waits (ev : Event E) d :
  waitsOnlyWhileRendering d -> waitsOnlyWhileRendering (handle ev d).
Proof.
  intros Hd. destruct ev; cbn [handle]; try exact Hd.
  - now apply updatePreview_waits.
  - unfold setHtmlExporter. apply updatePreview_waits. exact Hd.
  - unfold updateBaseDir. apply updatePreview_waits. exact Hd.
  - now apply finished_waits.
Qed.

Lemma reachable_waits d : reachable d -> waitsOnlyWhileRendering d.
Proof.
  induction 1 as [doc e | ev d _ IH].
  - unfold HtmlPreview_new, updateBaseDir. apply updatePreview_waits.
    intros Hagain. discriminate Hagain.
  - now apply handle_waits.
Qed.

(** X4: in every state a preview can reach, [updateAgain] is set only
    while [updateInProgress] is; and a finished render always leaves
    [updateAgain] cleared. *)
Theorem updateAgain_only_while_rendering d :
  reachable d ->
  (updateAgain d = true -> updateInProgress d = true)
  /\ (running d <> [] -> updateAgain (finished d) = false).
Proof.
  intros Hreach. split; [exact (reachable_waits d Hreach)|].
  intros Hrun. unfold finished.
  destruct (running d) as [|[t e] rest]; [congruence|].
  unfold onHtmlReady. apply finishUpdate_updateAgain.
Qed.

(** One finished render clears [updateAgain] and keeps the count of
    running exports in step with [updateInProgress]. *)
Lemma finished_once d :
  singleFlight d -> waitsOnlyWhileRendering d ->
  singleFlight (finished d) /\ updateAgain (finished d) = false.
Proof.
  intros Hsf Hwait. split; [now apply finished_singleFlight|].
  unfold finished.
  destruct (running d) as [|[t e] rest] eqn:Hrun.
  - unfold singleFlight in Hsf. rewrite Hrun in Hsf. cbn in Hsf.
    destruct (updateAgain d) eqn:Hagain; [|reflexivity].
    rewrite (Hwait Hagain) in Hsf. discriminate.
  - unfold onHtmlReady. apply finishUpdate_updateAgain.
Qed.

(** With no request waiting, a finished render leaves the preview idle. *)
Lemma finished_quiet d :
  singleFlight d -> updateAgain d = false ->
  updateInProgress (finished d) = false
  /\ updateAgain (finished d) = false
  /\ running (finished d) = [].
Proof.
  intros Hsf Hquiet. unfold singleFlight in Hsf.
  destruct (running d) as [|[t e] rest] eqn:Hrun.
  - unfold finished. rewrite Hrun. cbn in Hsf.
    destruct (updateInProgress d); [discriminate | now repeat split].
  - rewrite (finished_step d t e rest Hrun). unfold onHtmlReady.
    set (html := fst (exportToHtml t e)).
    destruct (publishRender_frame html (set_running rest d))
      as (_ & _ & Hagain & _ & Hr & _).
    rewrite finishUpdate_quiet by (rewrite Hagain; exact Hquiet).
    cbn [updateInProgress updateAgain running set_updateInProgress].
    rewrite Hagain, Hr. cbn.
    destruct (updateInProgress d); cbn in Hsf; [|lia].
    destruct rest; [now repeat split | cbn in Hsf; lia].
Qed.

(** X5: from any state a preview can reach, two [finished] signals with
    nothing in between leave it idle: no render running, neither flag
    set. *)
Theorem drained_by_two_finished d :
  reachable d ->
  updateInProgress (finished (finished d)) = false
  /\ updateAgain (finished (finished d)) = false
  /\ running (finished (finished d)) = [].
Proof.
  intros Hreach.
  destruct (finished_once d (reachable_singleFlight d Hreach)
              (reachable_waits d Hreach)) as (Hsf & Hquiet).
  now apply finished_quiet.
Qed.

(** ** The shell and the base URL *)

Lemma baseLocation_filePath (doc doc' : MarkdownDocument) :
  filePath doc = filePath doc' -> baseLocation doc = baseLocation doc'.
Proof. intros Hpath. unfold baseLocation. now rewrite Hpath. Qed.

Lemma updateBaseDir_fields d :
  wrapperHtml (updateBaseDir d) = wrapperHtml d
  /\ baseUrl (updateBaseDir d) = baseLocation (document d)
  /\ loaded (updateBaseDir d)
     = (loaded d ++ [(wrapperHtml d, baseLocation (document d))])%list
  /\ document (updateBaseDir d) = document d
  /\ styleSheet (updateBaseDir d) = styleSheet d.
Proof.
  unfold updateBaseDir.
  rewrite updatePreview_baseUrl, updatePreview_loaded,
    updatePreview_styleSheet.
  set (d2 := setHtml _ _ _).
  destruct (updatePreview_static d2) as (-> & -> & _).
  repeat split.
Qed.

Lemma setHtmlExporter_static (e : option E) d :
  wrapperHtml (setHtmlExporter e d) = wrapperHtml d
  /\ loaded (setHtmlExporter e d) = loaded d
  /\ baseUrl (setHtmlExporter e d) = baseUrl d
  /\ document (setHtmlExporter e d) = document d.
Proof.
  unfold setHtmlExporter.
  rewrite updatePreview_baseUrl, updatePreview_loaded.
  set (d1 := setHtmlContent _ _).
  destruct (updatePreview_static d1) as (-> & -> & _).
  repeat split.
Qed.

(** Only a change of the file path loads the page again. *)
Lemma handle_shell (ev : Event E) d :
  wrapperHtml (handle ev d) = wrapperHtml d
  /\ loaded (handle ev d)
     = (loaded d
        ++ match ev with
           | FilePathChanged _ => [(wrapperHtml d, baseUrl (handle ev d))]
           | _ => []
           end)%list
  /\ (baseUrl d = baseLocation (document d) ->
      baseUrl (handle ev d) = baseLocation (document (handle ev d))).
Proof.
  destruct ev; cbn [handle].
  - destruct (updatePreview_static d) as (-> & -> & _).
    rewrite updatePreview_loaded, updatePreview_baseUrl, app_nil_r.
    repeat split; auto.
  - destruct (setHtmlExporter_static e d) as (-> & -> & -> & ->).
    rewrite app_nil_r. repeat split; auto.
  - rewrite app_nil_r. repeat split; auto.
  - rewrite app_nil_r. repeat split; auto.
  - set (d0 := set_document _ d).
    destruct (updateBaseDir_fields d0) as (-> & -> & -> & -> & _).
    repeat split.
  - rewrite app_nil_r. repeat split. cbn. intros ->.
    now apply baseLocation_filePath.
  - rewrite app_nil_r. repeat split; auto.
  - destruct (finished_static d) as (-> & -> & -> & _ & -> & _).
    rewrite app_nil_r. repeat split; auto.
Qed.

Lemma run_shell (evs : list (Event E)) :
  forall d,
    wrapperHtml d = shellHtml ->
    Forall (fun l => fst l = shellHtml) (loaded d) ->
    wrapperHtml (run evs d) = shellHtml
    /\ length (loaded (run evs d)) = length (loaded d) + pathChanges evs
    /\ Forall (fun l => fst l = shellHtml) (loaded (run evs d)).
Proof.
  induction evs as [|ev evs IH]; intros d Hshell Hall.
  - cbn. repeat split; auto.
  - destruct (handle_shell ev d) as (Hw & Hl & _).
    assert (Hall' : Forall (fun l => fst l = shellHtml) (loaded (handle ev d))).
    { rewrite Hl. apply Forall_app. split; [exact Hall|].
      destruct ev; constructor; cbn; auto. }
    destruct (IH (handle ev d)) as (Hw' & Hlen & Hall'');
      [now rewrite Hw | exact Hall' |].
    change (run (ev :: evs) d) with (run evs (handle ev d)).
    split; [exact Hw'|]. split; [|exact Hall''].
    rewrite Hlen, Hl, length_app.
    unfold pathChanges. destruct ev; cbn; lia.
Qed.

Lemma HtmlPreview_new_fields (doc : MarkdownDocument) (e : option E) :
  wrapperHtml (HtmlPreview_new doc e) = shellHtml
  /\ loaded (HtmlPreview_new doc e) = [(shellHtml, baseLocation doc)]
  /\ baseUrl (HtmlPreview_new doc e) = baseLocation doc
  /\ document (HtmlPreview_new doc e) = doc
  /\ running (HtmlPreview_new doc e) = []
  /\ text (styleSheet (HtmlPreview_new doc e)) = ""
  /\ vanillaHtml (HtmlPreview_new doc e) = ""
  /\ text (livePreviewHtml (HtmlPreview_new doc e)) = "".
Proof. repeat split. Qed.

(** X6: whatever the events, the page was loaded once by the constructor
    and once more for every change of the file path, each time with the
    shell markup; no other call or signal loads it. *)
Theorem shell_loaded_per_path_change (doc : MarkdownDocument)
    (e : option E) (evs : list (Event E)) :
  let d := run evs (HtmlPreview_new doc e) in
  length (loaded d) = 1 + pathChanges evs
  /\ Forall (fun l => fst l = shellHtml) (loaded d).
Proof.
  cbv zeta.
  destruct (HtmlPreview_new_fields doc e) as (Hw & Hl & _).
  destruct (run_shell evs (HtmlPreview_new doc e)) as (_ & Hlen & Hall).
  - exact Hw.
  - rewrite Hl. now repeat constructor.
  - rewrite Hlen, Hl. now split.
Qed.

Lemma reachable_base d :
  reachable d ->
  baseUrl d = baseLocation (document d)
  /\ wrapperHtml d = shellHtml
  /\ exists earlier, loaded d = (earlier ++ [(shellHtml, baseUrl d)])%list.
Proof.
  induction 1 as [doc e | ev d _ (Hbase & Hshell & earlier & Hloaded)].
  - destruct (HtmlPreview_new_fields doc e) as (Hw & Hl & Hb & Hd & _).
    rewrite Hb, Hd, Hw, Hl. repeat split. now exists [].
  - destruct (handle_shell ev d) as (Hw & Hl & Hb).
    split; [now apply Hb|]. split; [now rewrite Hw|].
    rewrite Hl, Hshell.
    assert (Hsame : match ev with
                    | FilePathChanged _ => True
                    | _ => baseUrl (handle ev d) = baseUrl d
                    end).
    { destruct ev; cbn [handle]; auto.
      - apply updatePreview_baseUrl.
      - now destruct (setHtmlExporter_static e d) as (_ & _ & -> & _).
      - now destruct (finished_static d) as (_ & _ & -> & _). }
    destruct ev; try (rewrite app_nil_r, Hsame; now exists earlier).
    now exists (loaded d).
Qed.

(** X7: in every state a preview can reach, the base URL is the one of the
    document's current file path, and the last load of the page was the
    shell markup on that base URL. *)
Theorem base_follows_filePath d :
  reachable d ->
  baseUrl d = baseLocation (document d)
  /\ exists earlier, loaded d = (earlier ++ [(shellHtml, baseUrl d)])%list.
Proof.
  intros Hreach.
  destruct (reachable_base d Hreach) as (Hbase & _ & Hlast). now split.
Qed.

(** ** Requests in a row *)

Lemma nextExport_ready d (e : E) :
  canRender d = true -> exporter d = Some e ->
  nextExport d = [(qstring_chars (toPlainText (document d)), e)].
Proof. intros Hcan He. unfold nextExport. now rewrite He, Hcan. Qed.

Lemma updatePreview_started d :
  updateInProgress d = false -> nextExport d <> [] ->
  updateInProgress (updatePreview d) = true.
Proof.
  intros Hidle Hnext.
  apply (updatePreview_starts d).
  rewrite updatePreview_idle_running by assumption.
  intros Heq. apply Hnext.
  apply (app_inv_head (running d)). now rewrite app_nil_r.
Qed.

(** The end of a render with a request waiting: the result is published
    and one [updatePreview] runs on the idle preview. *)
Lemma finished_replays d (t : string) (e : E) :
  running d = [(t, e)] -> updateAgain d = true ->
  running (finished d) = nextExport d
  /\ exporter (finished d) = exporter d
  /\ (nextExport d <> [] -> updateInProgress (finished d) = true).
Proof.
  intros Hrun Hagain.
  rewrite (finished_step d t e [] Hrun). unfold onHtmlReady.
  set (html := fst (exportToHtml t e)).
  destruct (publishRender_frame html (set_running [] d))
    as (Hdoc & _ & Hag & Hexp & Hr & Hvis & _).
  rewrite finishUpdate_again by (rewrite Hag; exact Hagain).
  set (d1 := set_updateAgain false _).
  assert (Hnext : nextExport d1 = nextExport d).
  { apply nextExport_ext; subst d1; cbn; assumption. }
  split; [|split].
  - rewrite updatePreview_idle_running by reflexivity.
    rewrite Hnext. subst d1.
    cbn [running set_updateAgain set_updateInProgress]. now rewrite Hr.
  - destruct (updatePreview_static d1) as (_ & _ & -> & _).
    subst d1. cbn [exporter set_updateAgain set_updateInProgress].
    exact Hexp.
  - intros Hsome. apply updatePreview_started; [reflexivity|].
    now rewrite Hnext.
Qed.

(** X8: [updatePreview] called twice in a row on an idle preview that can
    render is not the same as calling it once: the first call starts the
    export, the second marks a request, and when the export ends a second
    export of the same text starts; after one call the preview is idle
    when the export ends. *)
Theorem double_request_renders_twice d (e : E) :
  updateInProgress d = false -> updateAgain d = false ->
  running d = [] -> canRender d = true -> exporter d = Some e ->
  let t := qstring_chars (toPlainText (document d)) in
  running (updatePreview d) = [(t, e)]
  /\ updatePreview (updatePreview d) = set_updateAgain true (updatePreview d)
  /\ running (finished (updatePreview d)) = []
  /\ updateInProgress (finished (updatePreview d)) = false
  /\ running (finished (updatePreview (updatePreview d))) = [(t, e)]
  /\ updateInProgress (finished (updatePreview (updatePreview d))) = true.
Proof.
  intros Hidle Hquiet Hnone Hcan He t.
  pose proof (nextExport_ready d e Hcan He) as Hnext. fold t in Hnext.
  assert (Hrun : running (updatePreview d) = [(t, e)]).
  { rewrite updatePreview_idle_running by assumption.
    now rewrite Hnone, Hnext. }
  assert (Hbusy : updateInProgress (updatePreview d) = true).
  { apply updatePreview_started; [assumption|]. now rewrite Hnext. }
  assert (Hsf : singleFlight (updatePreview d)).
  { unfold singleFlight. now rewrite Hrun, Hbusy. }
  assert (Hq : updateAgain (updatePreview d) = false).
  { now rewrite updatePreview_updateAgain. }
  destruct (finished_quiet (updatePreview d) Hsf Hq) as (Hu & _ & Hr).
  destruct (updatePreview_static d) as (_ & Hdoc & Hexp & Hvis).
  split; [exact Hrun|].
  split; [now apply updatePreview_busy|].
  split; [exact Hr|]. split; [exact Hu|].
  rewrite (updatePreview_busy (updatePreview d) Hbusy).
  destruct (finished_replays (set_updateAgain true (updatePreview d)) t e)
    as (Hr2 & _ & Hu2); [exact Hrun | reflexivity |].
  assert (Hnext2 : nextExport (set_updateAgain true (updatePreview d))
                   = [(t, e)]).
  { rewrite <- Hnext. apply nextExport_ext; cbn; assumption. }
  split; [now rewrite Hr2|].
  apply Hu2. now rewrite Hnext2.
Qed.

(** X9: when the exporter is changed while a render is running, the
    request waits; at the end of that render the next export, if the
    preview can render, runs with the new exporter, never with the old
    one. *)
Theorem exporter_swap_during_render d (t : string) (e : E)
    (e' : option E) :
  updateInProgress d = true -> running d = [(t, e)] ->
  let d1 := setHtmlExporter e' d in
  updateAgain d1 = true
  /\ running d1 = [(t, e)]
  /\ exporter (finished d1) = e'
  /\ running (finished d1) = nextExport (set_exporter e' d)
  /\ Forall (fun job => Some (snd job) = e') (running (finished d1))
  /\ length (running (finished d1)) <= 1.
Proof.
  intros Hbusy Hrun d1.
  assert (Hd1 : d1 = set_updateAgain true
                       (setHtmlContent "" (set_exporter e' d))).
  { subst d1. unfold setHtmlExporter. now apply updatePreview_busy. }
  assert (Hrun1 : running d1 = [(t, e)]) by (now rewrite Hd1).
  assert (Hagain1 : updateAgain d1 = true) by (now rewrite Hd1).
  destruct (finished_replays d1 t e Hrun1 Hagain1) as (Hr & Hexp & _).
  assert (Hnext : nextExport d1 = nextExport (set_exporter e' d)).
  { rewrite Hd1. now apply nextExport_ext. }
  split; [exact Hagain1|]. split; [exact Hrun1|].
  split; [now rewrite Hexp, Hd1|].
  rewrite Hr, Hnext. split; [reflexivity|].
  unfold nextExport. cbn [exporter set_exporter].
  destruct e' as [x|]; [|split; [constructor | cbn; lia]].
  destruct (canRender (set_exporter (Some x) d));
    split; try (repeat constructor); cbn; lia.
Qed.

(** ** The first render and empty renders *)

Lemma lines_nonempty (s : string) :
  s <> "" -> exists l rest, lines s = l :: rest.
Proof.
  intros Hne. rewrite lines_readLine.
  destruct s as [|c s]; [congruence|].
  unfold readLine. destruct (scanLine (String c s)) as [l r].
  now exists l, (lines r).
Qed.

Lemma publishRender_from_nothing d (html : string) :
  vanillaHtml d = "" -> html <> "" ->
  text (livePreviewHtml (publishRender html d))
  = anchor ++ emitLines (lines html)
  /\ vanillaHtml (publishRender html d) = html
  /\ count (publishRender html d) = S (count d).
Proof.
  intros Hnone Hne.
  destruct (lines_nonempty html Hne) as (l & rest & Hlines).
  assert (Hdiff : diffLines (lines (vanillaHtml d)) (lines html)
                  = (anchor ++ emitLines (lines html), true)).
  { rewrite Hnone, Hlines. change (lines "") with (@nil string).
    apply (diffLines_appended_from_nothing l rest). }
  destruct (publishRender_changed html d) as (Hv & Ht & Hc);
    [now rewrite Hdiff|].
  rewrite Hdiff in Ht. now repeat split.
Qed.

(** X10: with nothing stored (as after the constructor, [closeEvent],
    [setHtmlExporter] or an update on an empty document), a render that is
    not empty is published whole, the anchor before its first line, and
    becomes the stored render; an empty render is not published. *)
Theorem first_render_published_whole d (html : string) :
  vanillaHtml d = "" -> html <> "" ->
  text (livePreviewHtml (publishRender html d))
  = anchor ++ emitLines (lines html)
  /\ vanillaHtml (publishRender html d) = html
  /\ count (publishRender html d) = S (count d)
  /\ publishRender "" d = d.
Proof.
  intros Hnone Hne.
  destruct (publishRender_from_nothing d html Hnone Hne) as (Ht & Hv & Hc).
  split; [exact Ht|]. split; [exact Hv|]. split; [exact Hc|].
  apply publishRender_unchanged. now rewrite Hnone.
Qed.

(** A render that ends with nothing stored and no request waiting. *)
Lemma finished_publishes_whole d (t : string) (e : E) :
  running d = [(t, e)] -> updateAgain d = false -> vanillaHtml d = "" ->
  fst (exportToHtml t e) <> "" ->
  text (livePreviewHtml (finished d))
  = anchor ++ emitLines (lines (fst (exportToHtml t e)))
  /\ vanillaHtml (finished d) = fst (exportToHtml t e)
  /\ running (finished d) = []
  /\ updateInProgress (finished d) = false.
Proof.
  intros Hrun Hquiet Hnone Hne.
  rewrite (finished_step d t e [] Hrun). unfold onHtmlReady.
  set (html := fst (exportToHtml t e)) in *.
  destruct (publishRender_frame html (set_running [] d))
    as (_ & _ & Hagain & _ & Hr & _).
  rewrite finishUpdate_quiet by (rewrite Hagain; exact Hquiet).
  destruct (publishRender_from_nothing (set_running [] d) html Hnone Hne)
    as (Ht & Hv & _).
  cbn [livePreviewHtml vanillaHtml running updateInProgress
       set_updateInProgress].
  now rewrite Ht, Hv, Hr.
Qed.

(** X15: [closeEvent] does not stop a running render: when the render
    ends, and no request waits, its markup is published whole, the anchor
    at the top, and stored again. *)
Theorem close_does_not_cancel_render d (t : string) (e : E) :
  running d = [(t, e)] -> updateAgain d = false ->
  fst (exportToHtml t e) <> "" ->
  running (closeEvent d) = [(t, e)]
  /\ updateInProgress (closeEvent d) = updateInProgress d
  /\ text (livePreviewHtml (finished (closeEvent d)))
     = anchor ++ emitLines (lines (fst (exportToHtml t e)))
  /\ vanillaHtml (finished (closeEvent d)) = fst (exportToHtml t e).
Proof.
  intros Hrun Hquiet Hne.
  split; [exact Hrun|]. split; [reflexivity|].
  destruct (finished_publishes_whole (closeEvent d) t e)
    as (Ht & Hv & _); try assumption; [reflexivity|].
  now split.
Qed.

(** X16: [setHtmlExporter] on an idle preview that can render starts an
    export with the new exporter, and when it ends its markup, if not
    empty, is published whole, whatever was published before. *)
Theorem new_exporter_publishes_whole d (e' : E) :
  updateInProgress d = false -> updateAgain d = false -> running d = [] ->
  canRender (set_exporter (Some e') d) = true ->
  let t := qstring_chars (toPlainText (document d)) in
  let html := fst (exportToHtml t e') in
  html <> "" ->
  running (setHtmlExporter (Some e') d) = [(t, e')]
  /\ text (livePreviewHtml (finished (setHtmlExporter (Some e') d)))
     = anchor ++ emitLines (lines html)
  /\ vanillaHtml (finished (setHtmlExporter (Some e') d)) = html
  /\ running (finished (setHtmlExporter (Some e') d)) = [].
Proof.
  intros Hidle Hquiet Hnone Hcan t html Hne.
  set (d1 := setHtmlContent "" (set_exporter (Some e') d)).
  assert (Hcan1 : canRender d1 = true).
  { rewrite <- Hcan. now apply canRender_ext. }
  assert (Hrun : running (setHtmlExporter (Some e') d) = [(t, e')]).
  { unfold setHtmlExporter. fold d1.
    rewrite updatePreview_idle_running by assumption.
    rewrite (nextExport_ready d1 e' Hcan1 eq_refl).
    subst d1. cbn [running setHtmlContent set_livePreviewHtml
                   set_vanillaHtml set_count set_exporter].
    now rewrite Hnone. }
  assert (Hvan : vanillaHtml (setHtmlExporter (Some e') d) = "").
  { now destruct (setHtmlExporter_fields (Some e') d) as (-> & _). }
  assert (Hq : updateAgain (setHtmlExporter (Some e') d) = false).
  { unfold setHtmlExporter. fold d1.
    now rewrite updatePreview_updateAgain. }
  destruct (finished_publishes_whole (setHtmlExporter (Some e') d) t e'
              Hrun Hq Hvan Hne) as (Ht & Hv & Hr & _).
  now repeat split.
Qed.

(** ** What is exported *)

Lemma updatePreview_running_texts d :
  Forall (fun job => fst job <> "") (running d) ->
  Forall (fun job => fst job <> "") (running (updatePreview d)).
Proof.
  intros Hall. unfold updatePreview.
  destruct (updateInProgress d); [exact Hall|].
  destruct (visible d); [|exact Hall].
  destruct (document_isEmpty (document d)); [exact Hall|].
  destruct (exporter d) as [e|]; [|exact Hall].
  destruct (toPlainText (document d)) as [[|c s]|]; cbn; try exact Hall.
  apply Forall_app. split; [exact Hall|].
  constructor; [cbn; discriminate | constructor].
Qed.

Lemma finished_running_texts d :
  Forall (fun job => fst job <> "") (running d) ->
  Forall (fun job => fst job <> "") (running (finished d)).
Proof.
  intros Hall. unfold finished.
  destruct (running d) as [|[t e] rest] eqn:Hrun; [now rewrite Hrun|].
  unfold onHtmlReady.
  set (html := fst (exportToHtml t e)).
  destruct (publishRender_frame html (set_running rest d))
    as (_ & _ & _ & _ & Hr & _).
  assert (Hrest : Forall (fun job => fst job <> "")
                    (running (publishRender html (set_running rest d)))).
  { rewrite Hr. cbn. now inversion Hall. }
  destruct (updateAgain (publishRender html (set_running rest d)))
    eqn:Hagain.
  - rewrite finishUpdate_again by assumption.
    apply updatePreview_running_texts. exact Hrest.
  - rewrite finishUpdate_quiet by assumption. exact Hrest.
Qed.

(** X11: in every state a preview can reach, no export is running on an
    empty text: the exporter is never handed an empty document. *)
Theorem exporter_never_given_empty_text d :
  reachable d -> Forall (fun job => fst job <> "") (running d).
Proof.
  induction 1 as [doc e | ev d _ IH].
  - constructor.
  - destruct ev; cbn [handle]; try exact IH.
    + now apply updatePreview_running_texts.
    + unfold setHtmlExporter. apply updatePreview_running_texts. exact IH.
    + unfold updateBaseDir. apply updatePreview_running_texts. exact IH.
    + now apply finished_running_texts.
Qed.

(** ** What is published *)

Lemma publishedMatchesStored_ext d d' :
  vanillaHtml d' = vanillaHtml d -> livePreviewHtml d' = livePreviewHtml d ->
  publishedMatchesStored d -> publishedMatchesStored d'.
Proof. unfold publishedMatchesStored. now intros -> ->. Qed.

Lemma publishedMatchesStored_empty d :
  vanillaHtml d = "" -> text (livePreviewHtml d) = "" ->
  publishedMatchesStored d.
Proof. intros Hv Ht. left. now split. Qed.

Lemma updatePreview_matches d :
  publishedMatchesStored d -> publishedMatchesStored (updatePreview d).
Proof.
  intros Hd.
  destruct (updatePreview_published d) as [[Hv Hl] | [Hv Hl]].
  - exact (publishedMatchesStored_ext d _ Hv Hl Hd).
  - now apply publishedMatchesStored_empty.
Qed.

Lemma publishRender_matches html d :
  publishedMatchesStored d -> publishedMatchesStored (publishRender html d).
Proof.
  intros Hd.
  destruct (snd (diffLines (lines (vanillaHtml d)) (lines html))) eqn:Hdiff.
  - destruct (publishRender_changed html d Hdiff) as (Hv & Ht & _).
    right.
    exists (commonPrefix (lines (vanillaHtml d)) (lines html)),
      (skipn (length (commonPrefix (lines (vanillaHtml d)) (lines html)))
         (lines html)).
    rewrite Hv, Ht. split; [apply commonPrefix_split|].
    rewrite diffLines_shape in Hdiff |- *.
    destruct (list_eq_dec string_dec (lines (vanillaHtml d)) (lines html));
      [discriminate | reflexivity].
  - now rewrite publishRender_unchanged.
Qed.

Lemma finished_matches d :
  publishedMatchesStored d -> publishedMatchesStored (finished d).
Proof.
  intros Hd. unfold finished.
  destruct (running d) as [|[t e] rest]; [exact Hd|].
  unfold onHtmlReady.
  set (html := fst (exportToHtml t e)).
  assert (Hpub : publishedMatchesStored
                   (publishRender html (set_running rest d))).
  { apply publishRender_matches.
    now apply (publishedMatchesStored_ext d). }
  destruct (updateAgain (publishRender html (set_running rest d)))
    eqn:Hagain.
  - rewrite finishUpdate_again by assumption.
    apply updatePreview_matches.
    now apply (publishedMatchesStored_ext
                 (publishRender html (set_running rest d))).
  - rewrite finishUpdate_quiet by assumption.
    now apply (publishedMatchesStored_ext
                 (publishRender html (set_running rest d))).
Qed.

Lemma reachable_matches d : reachable d -> publishedMatchesStored d.
Proof.
  induction 1 as [doc e | ev d _ IH].
  - now apply publishedMatchesStored_empty.
  - destruct ev; cbn [handle].
    + now apply updatePreview_matches.
    + destruct (setHtmlExporter_fields e d) as (Hv & Ht & _).
      now apply publishedMatchesStored_empty.
    + now apply (publishedMatchesStored_ext d).
    + destruct (closeEvent_fields d) as (Hv & Ht & _).
      now apply publishedMatchesStored_empty.
    + unfold updateBaseDir. apply updatePreview_matches.
      now apply (publishedMatchesStored_ext d).
    + now apply (publishedMatchesStored_ext d).
    + now apply (publishedMatchesStored_ext d).
    + now apply finished_matches.
Qed.

(** X12: in every state a preview can reach, the published markup and the
    stored render are both empty, or the published markup is the lines of
    the stored render with the anchor inserted before one of them or
    behind the last; so published markup that is not empty contains the
    anchor. *)
Theorem published_is_stored_with_anchor d :
  reachable d ->
  publishedMatchesStored d
  /\ (text (livePreviewHtml d) = ""
      \/ hasAnchor (text (livePreviewHtml d)) = true).
Proof.
  intros Hreach. pose proof (reachable_matches d Hreach) as Hd.
  split; [exact Hd|].
  destruct Hd as [[_ Ht] | (before & after & _ & Ht)]; [now left|].
  right. rewrite Ht. apply hasAnchor_inserted.
Qed.

(** ** The style sheet *)

Lemma handle_styleSheet (ev : Event E) d :
  text (styleSheet (handle ev d))
  = match ev with
    | CallSetStyleSheet css => css
    | _ => text (styleSheet d)
    end.
Proof.
  destruct ev; cbn [handle].
  - now rewrite updatePreview_styleSheet.
  - now destruct (setHtmlExporter_fields e d) as (_ & _ & ->).
  - unfold setStyleSheet. cbn. apply setText_text.
  - now destruct (closeEvent_fields d) as (_ & _ & ->).
  - set (d0 := set_document _ d).
    now destruct (updateBaseDir_fields d0) as (_ & _ & _ & _ & ->).
  - reflexivity.
  - reflexivity.
  - now destruct (finished_static d) as (_ & _ & _ & -> & _).
Qed.

Lemma run_styleSheet (evs : list (Event E)) :
  forall d,
    text (styleSheet (run evs d)) = lastStyleSheet evs (text (styleSheet d)).
Proof.
  induction evs as [|ev evs IH]; intros d; [reflexivity|].
  change (run (ev :: evs) d) with (run evs (handle ev d)).
  rewrite IH, handle_styleSheet. unfold lastStyleSheet. cbn.
  now destruct ev.
Qed.

(** X13: whatever the events, the style sheet the page reads is the one
    of the last [setStyleSheet] call, and empty before the first: a close,
    a new exporter, a path change, an update or a finished render never
    change it. *)
Theorem styleSheet_is_last_set (doc : MarkdownDocument) (e : option E)
    (evs : list (Event E)) :
  text (styleSheet (run evs (HtmlPreview_new doc e)))
  = lastStyleSheet evs "".
Proof.
  rewrite run_styleSheet.
  now destruct (HtmlPreview_new_fields doc e)
    as (_ & _ & _ & _ & _ & -> & _).
Qed.

End Coverage.

(** ** Scripts *)

Lemma length_append (a b : string) :
  String.length (a ++ b) = String.length a + String.length b.
Proof. induction a as [|c a IH]; cbn; [reflexivity | now rewrite IH]. Qed.

Lemma append_inv_head (a x y : string) : a ++ x = a ++ y -> x = y.
Proof.
  induction a as [|c a IH]; cbn; [trivial|].
  intros Heq. injection Heq as Heq. now apply IH.
Qed.

Lemma append_inv_tail (x y s : string) : x ++ s = y ++ s -> x = y.
Proof.
  revert y. induction x as [|c x IH]; intros [|c' y] Heq.
  - reflexivity.
  - apply (f_equal String.length) in Heq. cbn in Heq.
    rewrite length_append in Heq. lia.
  - apply (f_equal String.length) in Heq. cbn in Heq.
    rewrite length_append in Heq. lia.
  - cbn in Heq. injection Heq as -> Heq. f_equal. now apply IH.
Qed.

Lemma decimal_inj (n m : Z) : decimal n = decimal m -> n = m.
Proof.
  unfold decimal. intros Heq.
  assert (Hnil : forall z, Z.to_int z <> Decimal.Pos Decimal.Nil
                           /\ Z.to_int z <> Decimal.Neg Decimal.Nil).
  { intros [|p|p]; cbn; split; try discriminate;
      intros [= Hp]; exact (DecimalPos.Unsigned.to_uint_nonnil p Hp). }
  apply (f_equal NilZero.int_of_string) in Heq.
  rewrite !NilZero.isi in Heq by apply Hnil.
  injection Heq as Heq.
  apply (f_equal Z.of_int) in Heq.
  now rewrite !DecimalZ.of_to in Heq.
Qed.

Lemma navigateToHeading_script (n : Z) (scripts : list string) :
  navigateToHeading n scripts
  = (scripts
     ++ [("document.getElementById('livepreviewhnbr" ++ decimal n
          ++ "').scrollIntoView()")%string])%list.
Proof. reflexivity. Qed.

(** X14: the script [navigateToHeading] hands to the page asks for the
    element [livepreviewhnbr] followed by the heading number in decimal,
    and tells the heading: two calls that leave the same scripts were
    made with the same number on the same earlier scripts. *)
Theorem navigateToHeading_names_heading (n m : Z)
    (scripts scripts' : list string) :
  navigateToHeading n scripts
  = (scripts
     ++ [("document.getElementById('livepreviewhnbr" ++ decimal n
          ++ "').scrollIntoView()")%string])%list
  /\ (navigateToHeading n scripts = navigateToHeading m scripts' ->
      scripts = scripts' /\ n = m).
Proof.
  split; [apply navigateToHeading_script|].
  rewrite !navigateToHeading_script. intros Heq.
  apply app_inj_tail in Heq. destruct Heq as [Hs Hscript].
  split; [exact Hs|].
  apply append_inv_head, append_inv_tail in Hscript.
  now apply decimal_inj.
Qed.

(** * The further properties on sample previews *)

Example navigateToHeading_three :
  navigateToHeading 3 []
  = ["document.getElementById('livepreviewhnbr3').scrollIntoView()"].
Proof. reflexivity. Qed.

Example onLoadFinished_failed : onLoadFinished false [] = [].
Proof. reflexivity. Qed.

Lemma diffLines_changed_hasAnchor_witness :
  snd (diffLines ["a"; "b"] ["a"; "c"]) = true
  /\ hasAnchor (fst (diffLines ["a"; "b"] ["a"; "c"])) = true.
Proof.
  split; [vm_compute; reflexivity|].
  apply (diffLines_changed_hasAnchor ["a"; "b"] ["a"; "c"]).
  vm_compute; reflexivity.
Defined.

Lemma updateAgain_only_while_rendering_witness :
  reachable hiddenWhileRendering
  /\ ((updateAgain hiddenWhileRendering = true ->
       updateInProgress hiddenWhileRendering = true)
      /\ (running hiddenWhileRendering <> [] ->
          updateAgain (finished hiddenWhileRendering) = false)).
Proof.
  assert (Hreach : reachable hiddenWhileRendering).
  { unfold hiddenWhileRendering. apply reachable_run, reachable_new. }
  split; [exact Hreach|].
  apply (updateAgain_only_while_rendering hiddenWhileRendering Hreach).
Defined.

Lemma drained_by_two_finished_witness :
  reachable visibleWhileRendering
  /\ (updateInProgress (finished (finished visibleWhileRendering)) = false
      /\ updateAgain (finished (finished visibleWhileRendering)) = false
      /\ running (finished (finished visibleWhileRendering)) = []).
Proof.
  assert (Hreach : reachable visibleWhileRendering).
  { unfold visibleWhileRendering. apply reachable_run, reachable_new. }
  split; [exact Hreach|].
  apply (drained_by_two_finished visibleWhileRendering Hreach).
Defined.

Lemma base_follows_filePath_witness :
  reachable hiddenAfterRender
  /\ (baseUrl hiddenAfterRender = baseLocation (document hiddenAfterRender)
      /\ exists earlier,
           loaded hiddenAfterRender
           = (earlier ++ [(shellHtml, baseUrl hiddenAfterRender)])%list).
Proof.
  assert (Hreach : reachable hiddenAfterRender).
  { unfold hiddenAfterRender. apply reachable_run, reachable_new. }
  split; [exact Hreach|].
  apply (base_follows_filePath hiddenAfterRender Hreach).
Defined.

Lemma double_request_renders_twice_witness :
  updateInProgress idleVisible = false
  /\ updateAgain idleVisible = false
  /\ running idleVisible = []
  /\ canRender idleVisible = true
  /\ exporter idleVisible = Some pExporter
  /\ (let t := qstring_chars (toPlainText (document idleVisible)) in
      running (updatePreview idleVisible) = [(t, pExporter)]
      /\ updatePreview (updatePreview idleVisible)
         = set_updateAgain true (updatePreview idleVisible)
      /\ running (finished (updatePreview idleVisible)) = []
      /\ updateInProgress (finished (updatePreview idleVisible)) = false
      /\ running (finished (updatePreview (updatePreview idleVisible)))
         = [(t, pExporter)]
      /\ updateInProgress
           (finished (updatePreview (updatePreview idleVisible))) = true).
Proof.
  repeat (split; [vm_compute; reflexivity|]).
  apply (double_request_renders_twice idleVisible pExporter);
    vm_compute; reflexivity.
Defined.

Lemma exporter_swap_during_render_witness :
  updateInProgress visibleWhileRendering = true
  /\ running visibleWhileRendering = [("hello", pExporter)]
  /\ (let e' := Some {| smart := true; tag := "div" |} in
      let d1 := setHtmlExporter e' visibleWhileRendering in
      updateAgain d1 = true
      /\ running d1 = [("hello", pExporter)]
      /\ exporter (finished d1) = e'
      /\ running (finished d1)
         = nextExport (set_exporter e' visibleWhileRendering)
      /\ Forall (fun job => Some (snd job) = e') (running (finished d1))
      /\ length (running (finished d1)) <= 1).
Proof.
  repeat (split; [vm_compute; reflexivity|]).
  apply (exporter_swap_during_render visibleWhileRendering "hello" pExporter
           (Some {| smart := true; tag := "div" |}));
    vm_compute; reflexivity.
Defined.

Lemma first_render_published_whole_witness :
  vanillaHtml visibleWhileRendering = ""
  /\ "<p>x</p>" <> ""
  /\ (text (livePreviewHtml (publishRender "<p>x</p>" visibleWhileRendering))
      = anchor ++ emitLines (lines "<p>x</p>")
      /\ vanillaHtml (publishRender "<p>x</p>" visibleWhileRendering)
         = "<p>x</p>"
      /\ count (publishRender "<p>x</p>" visibleWhileRendering)
         = S (count visibleWhileRendering)
      /\ publishRender "" visibleWhileRendering = visibleWhileRendering).
Proof.
  split; [vm_compute; reflexivity|]. split; [discriminate|].
  apply (first_render_published_whole visibleWhileRendering "<p>x</p>");
    [vm_compute; reflexivity | discriminate].
Defined.

Lemma exporter_never_given_empty_text_witness :
  reachable visibleWhileRendering
  /\ Forall (fun job => fst job <> "") (running visibleWhileRendering).
Proof.
  assert (Hreach : reachable visibleWhileRendering).
  { unfold visibleWhileRendering. apply reachable_run, reachable_new. }
  split; [exact Hreach|].
  apply (exporter_never_given_empty_text visibleWhileRendering Hreach).
Defined.

Lemma published_is_stored_with_anchor_witness :
  reachable hiddenAfterRender
  /\ (publishedMatchesStored hiddenAfterRender
      /\ (text (livePreviewHtml hiddenAfterRender) = ""
          \/ hasAnchor (text (livePreviewHtml hiddenAfterRender)) = true)).
Proof.
  assert (Hreach : reachable hiddenAfterRender).
  { unfold hiddenAfterRender. apply reachable_run, reachable_new. }
  split; [exact Hreach|].
  apply (published_is_stored_with_anchor hiddenAfterRender Hreach).
Defined.

Lemma close_does_not_cancel_render_witness :
  running visibleWhileRendering = [("hello", pExporter)]
  /\ updateAgain visibleWhileRendering = false
  /\ fst (exportToHtml "hello" pExporter) <> ""
  /\ (running (closeEvent visibleWhileRendering) = [("hello", pExporter)]
      /\ updateInProgress (closeEvent visibleWhileRendering)
         = updateInProgress visibleWhileRendering
      /\ text (livePreviewHtml (finished (closeEvent visibleWhileRendering)))
         = anchor ++ emitLines (lines (fst (exportToHtml "hello" pExporter)))
      /\ vanillaHtml (finished (closeEvent visibleWhileRendering))
         = fst (exportToHtml "hello" pExporter)).
Proof.
  split; [vm_compute; reflexivity|]. split; [vm_compute; reflexivity|].
  split; [vm_compute; discriminate|].
  apply (close_does_not_cancel_render visibleWhileRendering "hello"
           pExporter);
    [vm_compute; reflexivity | vm_compute; reflexivity
     | vm_compute; discriminate].
Defined.

Lemma new_exporter_publishes_whole_witness :
  let e' := {| smart := false; tag := "div" |} in
  updateInProgress idleVisible = false
  /\ updateAgain idleVisible = false
  /\ running idleVisible = []
  /\ canRender (set_exporter (Some e') idleVisible) = true
  /\ (let t := qstring_chars (toPlainText (document idleVisible)) in
      let html := fst (exportToHtml t e') in
      html <> ""
      /\ (running (setHtmlExporter (Some e') idleVisible) = [(t, e')]
          /\ text (livePreviewHtml
                     (finished (setHtmlExporter (Some e') idleVisible)))
             = anchor ++ emitLines (lines html)
          /\ vanillaHtml (finished (setHtmlExporter (Some e') idleVisible))
             = html
          /\ running (finished (setHtmlExporter (Some e') idleVisible))
             = [])).
Proof.
  cbv zeta.
  repeat (split; [vm_compute; reflexivity|]).
  split; [vm_compute; discriminate|].
  apply (new_exporter_publishes_whole idleVisible
           {| smart := false; tag := "div" |});
    try (vm_compute; reflexivity).
  vm_compute; discriminate.
Defined.
